(** * Sketch-to-image request handler (drawing-app/lambda_function.py)

    A shallow embedding of [lambda_handler] and of the helpers it calls
    ([generate_image_from_sketch], [upload_to_s3], [error_response],
    [cors_headers]), followed by the properties of the request pipeline.

    Python objects that reach the handler are JSON values.  Library calls
    whose results the handler only consumes ([json.loads], [json.dumps],
    [urllib.request.urlopen], [base64.b64decode], the S3 client, the clock,
    [os.environ], the encoding of [sys.stdout]) are fields of a [World]
    record: every theorem holds for every world.

    A [print] raises [UnicodeEncodeError] when its text holds a character
    that [sys.stdout] cannot encode (under UTF-8, a lone surrogate, which
    [json.loads] yields from an escaped one).  The log lines that print
    text of the request, lines 78, 110 and 116, are steps of the model.
    The other log lines print constants, types, lengths, [repr]s, the
    output of [json.dumps] and the texts of exceptions, which are ASCII,
    and are left out. *)

From Stdlib Require Import Floats Ascii String.
From stdpp Require Import gmap strings list fin_maps pretty.

Set Warnings "-register-all".

Open Scope string_scope.

(** ** Python values *)

(** What [json.loads] can produce, and so what an event, a body, a field of
    a body or an API reply can be. *)
Inductive value : Type :=
| VNone
| VBool (b : bool)
| VInt (n : Z)
| VFloat (f : float)
| VStr (s : string)
| VList (l : list value)
| VDict (d : gmap string value).

(** [bool(v)], the test behind [if v] and [not v]. *)
Definition truthy (v : value) : bool :=
  match v with
  | VNone => false
  | VBool b => b
  | VInt n => negb (n =? 0)%Z
  | VFloat f => negb (PrimFloat.eqb f 0%float)
  | VStr s => negb (String.eqb s "")
  | VList l => match l with [] => false | _ :: _ => true end
  | VDict d => match map_to_list d with [] => false | _ :: _ => true end
  end.

(** [type(v).__name__], as it appears in the text of a [TypeError]. *)
Definition type_name (v : value) : string :=
  match v with
  | VNone => "NoneType"
  | VBool _ => "bool"
  | VInt _ => "int"
  | VFloat _ => "float"
  | VStr _ => "str"
  | VList _ => "list"
  | VDict _ => "dict"
  end.

Definition is_str (v : value) : bool :=
  match v with VStr _ => true | _ => false end.

(** Lists and dicts cannot be dictionary keys. *)
Definition hashable (v : value) : bool :=
  match v with VList _ | VDict _ => false | _ => true end.

(** ** Strings *)

(** [s.split(sep)] for a one-character separator: every occurrence of
    [sep] cuts, and the result is never empty (so the first branch of the
    inner [match] is never taken). *)
Fixpoint split_on (sep : ascii) (s : string) : list string :=
  match s with
  | EmptyString => [EmptyString]
  | String c s' =>
      if Ascii.eqb c sep then EmptyString :: split_on sep s'
      else match split_on sep s' with
           | [] => [String c EmptyString]
           | h :: t => String c h :: t
           end
  end.

(** [s.startswith(p)]. *)
Definition startswith (p s : string) : bool := String.prefix p s.

(** [needle in s] on strings. *)
Fixpoint is_substring (needle s : string) : bool :=
  if String.prefix needle s then true
  else match s with
       | EmptyString => false
       | String _ s' => is_substring needle s'
       end.

(** Number of occurrences of a character. *)
Fixpoint count_char (c : ascii) (s : string) : nat :=
  match s with
  | EmptyString => 0
  | String a s' => (if Ascii.eqb a c then 1 else 0) + count_char c s'
  end.

(** The characters of a string, each as a one-character string: what
    iterating over a [str] yields. *)
Fixpoint chars_of (s : string) : list value :=
  match s with
  | EmptyString => []
  | String c s' => VStr (String c EmptyString) :: chars_of s'
  end.

(** ** Operations that raise

    Inside [generate_image_from_sketch] every exception ends in the same
    handler, so there [None] stands for "raised". *)

(** [len(v)]: [TypeError] on [None], booleans and numbers. *)
Definition py_len (v : value) : option nat :=
  match v with
  | VStr s => Some (String.length s)
  | VList l => Some (length l)
  | VDict d => Some (size d)
  | _ => None
  end.

(** [key in v]: key test on a dict, element test on a list, substring test
    on a string, [TypeError] otherwise. *)
Definition py_contains (key : string) (v : value) : option bool :=
  match v with
  | VDict d => Some (bool_decide (is_Some (d !! key)))
  | VList l =>
      Some (existsb (fun x => match x with
                              | VStr s => String.eqb s key
                              | _ => false
                              end) l)
  | VStr s => Some (is_substring key s)
  | _ => None
  end.

(** [v[key]] with a string key: [KeyError] on a dict without it,
    [TypeError] on everything else. *)
Definition py_getitem (v : value) (key : string) : option value :=
  match v with
  | VDict d => d !! key
  | _ => None
  end.

(** [v[0]]: the first element of a list, the first character of a string;
    a JSON object has string keys only, so [KeyError] on a dict. *)
Definition py_first (v : value) : option value :=
  match v with
  | VList l => head l
  | VStr s => head (chars_of s)
  | _ => None
  end.

(** [v.get(key, dflt)]: only dicts have the method. *)
Definition py_get (v : value) (key : string) (dflt : value) : option value :=
  match v with
  | VDict d => Some (default dflt (d !! key))
  | _ => None
  end.

(** [v.startswith(p)]: only strings have the method. *)
Definition py_startswith (v : value) (p : string) : option bool :=
  match v with
  | VStr s => Some (startswith p s)
  | _ => None
  end.

(** [iter(v)]: elements of a list, keys of a dict, characters of a
    string, [TypeError] otherwise. *)
Definition py_iter (v : value) : option (list value) :=
  match v with
  | VList l => Some l
  | VDict d => Some (VStr <$> (map_to_list d).*1)
  | VStr s => Some (chars_of s)
  | _ => None
  end.

(** ** Responses *)

Record Response : Type := mkResponse {
  statusCode : Z;
  headers : list (string * string);
  body : string
}.

(** ** The world outside the handler *)

(** [json.loads]: a value, a [JSONDecodeError] with its text, or any other
    exception with its text. *)
Inductive loads_result : Type :=
| Parsed (v : value)
| JSONDecodeError (msg : string)
| LoadsRaised (msg : string).

(** [urlopen] followed by [read] and [decode]: the text of the reply, an
    [HTTPError] whose handler (lines 249-252: read, decode and log the
    body) completes, or any other exception ([URLError], a timeout,
    undecodable bytes). *)
Inductive urlopen_result : Type :=
| UrlBody (text : string)
| UrlHTTPError
| UrlRaised.

Record World : Type := mkWorld {
  (** [os.environ] *)
  environ : gmap string string;
  json_loads : string -> loads_result;
  json_dumps : value -> string;
  (** [str(v)] for a value that is not a string *)
  py_repr : value -> string;
  (** [urlopen] of a POST request: URL, then data *)
  urlopen : string -> string -> urlopen_result;
  (** [datetime.now().strftime("%Y%m%d_%H%M%S")] *)
  strftime_now : string;
  (** [base64.b64decode]; [None] when it raises *)
  b64decode : string -> option (list Byte.byte);
  (** [s3_client.put_object]: bucket, key, body; [false] when it raises *)
  s3_put_object : string -> string -> list Byte.byte -> bool;
  (** [s3_client.generate_presigned_url]: bucket, key *)
  s3_generate_presigned_url : string -> string -> option string;
  (** whether [sys.stdout] can encode a character that is not ASCII *)
  stdout_encodes : ascii -> bool;
  (** [str(e)] of the [UnicodeEncodeError] that [print] raises on a text *)
  encode_error : string -> string
}.

(** ** Control flow of the handler

    A step of [lambda_handler] goes on with a value, returns a response at
    once, or raises; the handler's umbrella [except] turns a raised
    exception into a 500 with its text. *)
Inductive flow (A : Type) : Type :=
| Next (a : A)
| Return (r : Response)
| Raise (msg : string).
Arguments Next {A} a.
Arguments Return {A} r.
Arguments Raise {A} msg.

#[global] Instance flow_ret : MRet flow := fun A a => Next a.
#[global] Instance flow_bind : MBind flow := fun A B f m =>
  match m with
  | Next a => f a
  | Return r => Return r
  | Raise msg => Raise msg
  end.

(** ** The handler and its helpers *)

Section Handler.
Context (W : World).

(** [str(v)], also what an f-string substitutes for [{v}]. *)
Definition py_str (v : value) : string :=
  match v with
  | VStr s => s
  | _ => py_repr W v
  end.

(** A character that [sys.stdout] can encode: every ASCII character, and
    the others as the world has it. *)
Definition can_encode (c : ascii) : bool :=
  (nat_of_ascii c <? 128)%nat || stdout_encodes W c.

Fixpoint printable (text : string) : bool :=
  match text with
  | EmptyString => true
  | String c rest => can_encode c && printable rest
  end.

(** [print(text)] *)
Definition py_print (text : string) : flow unit :=
  if printable text then Next tt else Raise (encode_error W text).

(** [cors_headers()] *)
Definition cors_headers : list (string * string) :=
  [ ("Content-Type", "application/json");
    ("Access-Control-Allow-Origin", "*");
    ("Access-Control-Allow-Headers", "Content-Type,x-api-key,Authorization");
    ("Access-Control-Allow-Methods", "POST,OPTIONS") ].

(** The dict that [error_response] serialises. *)
Definition error_data (message : string) : value :=
  VDict (<["success" := VBool false]> (<["error" := VStr message]> ∅)).

(** [error_response(message, status_code)] *)
Definition error_response (message : string) (status_code : Z) : Response :=
  {| statusCode := status_code;
     headers := cors_headers;
     body := json_dumps W (error_data message) |}.

(** *** Lines 26-58: which object is the request body *)
Definition resolve_body (event : value) : flow value :=
  match event with
  | VDict ev =>
      match ev !! "body" with
      | Some body_content =>
          match body_content with
          | VStr s =>
              match json_loads W s with
              | Parsed b => Next b
              | JSONDecodeError e =>
                  Return (error_response ("Invalid JSON: " ++ e) 400)
              | LoadsRaised e => Raise e
              end
          | VDict _ => Next body_content
          | _ => Return (error_response "Invalid body format" 400)
          end
      | None =>
          match ev !! "imageData" with
          | Some _ => Next event
          | None => Next event
          end
      end
  | _ => Return (error_response "Invalid event format" 400)
  end.

(** *** Lines 61-67: the body must be a dict *)
Definition check_body (b : value) : flow (gmap string value) :=
  match b with
  | VNone => Return (error_response "No request body" 400)
  | VDict d => Next d
  | _ => Return (error_response "Body must be an object" 400)
  end.

(** *** Lines 72-73: [body.get("imageData")], [body.get("style", "realistic")] *)
Definition get_image_data (d : gmap string value) : value :=
  default VNone (d !! "imageData").

Definition get_style (d : gmap string value) : value :=
  default (VStr "realistic") (d !! "style").

(** *** Line 77: [len(image_data) if image_data else 0], evaluated for a
    log line *)
Definition log_length (image_data : value) : flow unit :=
  if truthy image_data then
    match py_len image_data with
    | Some _ => Next tt
    | None =>
        Raise ("object of type '" ++ type_name image_data ++ "' has no len()")
    end
  else Next tt.

(** *** Lines 81-85: the API key *)
Definition get_api_key : flow string :=
  match environ W !! "GEMINI_API_KEY" with
  | Some k =>
      if String.eqb k "" then
        Return (error_response "GEMINI_API_KEY not configured" 500)
      else Next k
  | None => Return (error_response "GEMINI_API_KEY not configured" 500)
  end.

(** *** Lines 88-99: validation of [imageData] *)
Definition validate_image_data (image_data : value) : flow string :=
  if negb (truthy image_data) then
    Return (error_response "No image data provided" 400)
  else
    match image_data with
    | VStr s =>
        if (String.length s <? 10)%nat then
          Return (error_response "imageData is too short" 400)
        else Next s
    | _ => Return (error_response "imageData must be a string" 400)
    end.

(** *** Lines 102-109 and 112-114: the data-URL prefix.  Yields
    [(image_data, mime_type)].  The log line 110 of the accepting branch
    is [log_mime_type] below; it comes after both assignments. *)
Definition decode_image_data (image_data : string) : flow (string * string) :=
  if startswith "data:image" image_data then
    let parts := split_on "," image_data in
    if (length parts =? 2)%nat then
      match split_on ";" image_data !! 0%nat with
      | Some before_semi =>
          match split_on ":" before_semi !! 1%nat with
          | Some mime_type =>
              match parts !! 1%nat with
              | Some payload => Next (payload, mime_type)
              | None => Raise "list index out of range"
              end
          | None => Raise "list index out of range"
          end
      | None => Raise "list index out of range"
      end
    else Return (error_response "Invalid data URL format" 400)
  else Next (image_data, "image/png").

(** *** Line 110: [print(f"Extracted mime type: {mime_type}")], reached in
    the accepting branch of a string with the prefix *)
Definition log_mime_type (image_data mime_type : string) : flow unit :=
  if startswith "data:image" image_data then
    py_print ("Extracted mime type: " ++ mime_type)
  else Next tt.

(** *** Line 78: [print(f"style: {style}")] *)
Definition log_style (style : value) : flow unit :=
  py_print ("style: " ++ py_str style).

(** *** Line 116:
    [print(f"Processing sketch with style: {style}, mime: {mime_type}")] *)
Definition log_processing (style : value) (mime_type : string) : flow unit :=
  py_print ("Processing sketch with style: " ++ py_str style
            ++ ", mime: " ++ mime_type).

(** *** [generate_image_from_sketch] *)

(** Lines 160-171: the style table. *)
Definition style_prompts : gmap string string :=
  <["realistic" := "photorealistic, highly detailed, professional photography, natural lighting, 8k quality"]> (
  <["anime" := "anime style, vibrant colors, Japanese animation aesthetic, cel-shaded, manga inspired"]> (
  <["cartoon" := "cartoon style, bold colors, playful illustration, animated feel, exaggerated features"]> (
  <["oil-painting" := "oil painting style, classical art, textured brushstrokes, rich colors, artistic masterpiece"]> (
  <["watercolor" := "watercolor painting, soft washes, delicate colors, artistic, painted on paper texture"]> (
  <["sketch" := "detailed pencil sketch, hand-drawn, artistic line work, shading and hatching, graphite drawing"]> (
  <["3d-render" := "3D rendered, computer graphics, smooth surfaces, professional CGI, octane render, unreal engine"]> (
  <["pixel-art" := "pixel art style, retro gaming aesthetic, 8-bit or 16-bit graphics, pixelated, sprite art"]> (
  <["cyberpunk" := "cyberpunk style, neon lights, futuristic, sci-fi aesthetic, dark with bright accents, technological"]> (
  <["fantasy" := "fantasy art style, magical atmosphere, ethereal, epic illustration, mystical and enchanting"]>
  ∅))))))))).

(** Line 173: [style_prompts.get(style, "high quality artistic style")].
    The keys are strings, so no other hashable value is found; a list or a
    dict is unhashable and the lookup raises [TypeError]. *)
Definition style_desc_of (style : value) : option string :=
  match style with
  | VStr s => Some (default "high quality artistic style" (style_prompts !! s))
  | VList _ | VDict _ => None
  | _ => Some "high quality artistic style"
  end.

(** Line 174 *)
Definition full_prompt_of (style_desc : string) : string :=
  "Transform this sketch into a beautiful image, " ++ style_desc
  ++ ", masterpiece quality, professional artwork".

(** Line 178 *)
Definition gemini_url (api_key : string) : string :=
  "https://generativelanguage.googleapis.com/v1beta/models/gemini-2.5-flash-image-preview:generateContent?key="
  ++ api_key.

Definition safety_setting (category : string) : value :=
  VDict (<["category" := VStr category]>
         (<["threshold" := VStr "BLOCK_MEDIUM_AND_ABOVE"]> ∅)).

(** Lines 180-214 *)
Definition gemini_payload (full_prompt mime_type sketch_data : string) : value :=
  VDict (
    <["contents" := VList [
        VDict (<["role" := VStr "user"]> (
               <["parts" := VList [
                   VDict (<["text" := VStr full_prompt]> ∅);
                   VDict (<["inlineData" :=
                             VDict (<["mimeType" := VStr mime_type]> (
                                    <["data" := VStr sketch_data]> ∅))]> ∅)
                 ]]> ∅))
      ]]> (
    <["generationConfig" :=
        VDict (<["responseModalities" := VList [VStr "TEXT"; VStr "IMAGE"]]> ∅)]> (
    <["safetySettings" := VList [
        safety_setting "HARM_CATEGORY_SEXUALLY_EXPLICIT";
        safety_setting "HARM_CATEGORY_HATE_SPEECH";
        safety_setting "HARM_CATEGORY_HARASSMENT";
        safety_setting "HARM_CATEGORY_DANGEROUS_CONTENT"
      ]]> ∅))).

(** Line 233-234, the condition of the generator:
    ["inlineData" in p and p["inlineData"].get("mimeType", "").startswith("image/")]. *)
Definition is_image_part (p : value) : option bool :=
  has ← py_contains "inlineData" p;
  if (has : bool) then
    inline ← py_getitem p "inlineData";
    mime ← py_get inline "mimeType" (VStr "");
    py_startswith mime "image/"
  else Some false.

(** Lines 229-237: [next((p for p in parts if ...), None)].  The generator
    is lazy: parts after the first match are never looked at. *)
Fixpoint find_image_part (parts : list value) : option (option value) :=
  match parts with
  | [] => Some None
  | p :: rest =>
      ok ← is_image_part p;
      if (ok : bool) then Some (Some p) else find_image_part rest
  end.

(** Lines 239-243, for a part that was found: [Some (Some img)] is the
    [return image_base64, full_prompt], [Some None] falls through to
    line 245. *)
Definition image_of_part (image_part : value) : option (option value) :=
  if truthy image_part then
    inline ← py_getitem image_part "inlineData";
    image_base64 ← py_get inline "data" VNone;
    if truthy image_base64 then
      _ ← py_len image_base64;
      Some (Some image_base64)
    else Some None
  else Some None.

(** Lines 225-247: what the reply holds. *)
Definition scan_response (data : value) : option (option value) :=
  has ← py_contains "candidates" data;
  nonempty ←
    (if (has : bool) then
       cands ← py_getitem data "candidates";
       n ← py_len cands;
       Some (0 <? n)%nat
     else Some false);
  if (nonempty : bool) then
    cands ← py_getitem data "candidates";
    cand ← py_first cands;
    content ← py_get cand "content" (VDict ∅);
    parts ← py_get content "parts" (VList []);
    items ← py_iter parts;
    found ← find_image_part items;
    match found with
    | Some image_part => image_of_part image_part
    | None => Some None
    end
  else Some None.

(** Lines 176-252, once the prompt is built: the request, the reply, and
    the inner [except HTTPError]. *)
Definition generate_with_prompt
    (api_key sketch_data mime_type full_prompt : string) : value * string :=
  let payload := gemini_payload full_prompt mime_type sketch_data in
  match urlopen W (gemini_url api_key) (json_dumps W payload) with
  | UrlBody text =>
      match json_loads W text with
      | Parsed data =>
          match scan_response data with
          | Some (Some image_base64) => (image_base64, full_prompt)
          | Some None => (VNone, full_prompt)
          | None => (VNone, "")
          end
      | JSONDecodeError _ | LoadsRaised _ => (VNone, "")
      end
  | UrlHTTPError => (VNone, full_prompt)
  | UrlRaised => (VNone, "")
  end.

(** The whole function, under its outer [except Exception]:
    [(image_base64 or None, prompt)]. *)
Definition generate_image_from_sketch
    (api_key sketch_data : string) (style : value) (mime_type : string)
    : value * string :=
  match style_desc_of style with
  | None => (VNone, "")
  | Some style_desc =>
      generate_with_prompt api_key sketch_data mime_type
                           (full_prompt_of style_desc)
  end.

(** *** [upload_to_s3]: a URL or [None] *)
Definition s3_filename (style : value) : string :=
  "generated-images/drawing_" ++ strftime_now W ++ "_" ++ py_str style ++ ".png".

(** Lines 269-286, the body of the [try]: [None] when a step raises. *)
Definition try_upload (bucket_name : string) (image_base64 style : value)
    : option string :=
  let filename := s3_filename style in
  image_bytes ← match image_base64 with
                | VStr s => b64decode W s
                | _ => None
                end;
  if s3_put_object W bucket_name filename image_bytes then
    s3_generate_presigned_url W bucket_name filename
  else None.

Definition upload_to_s3 (image_base64 style : value) : value :=
  match environ W !! "S3_BUCKET_NAME" with
  | None => VNone
  | Some bucket_name =>
      if String.eqb bucket_name "" then VNone
      else match try_upload bucket_name image_base64 style with
           | Some s3_url => VStr s3_url
           | None => VNone
           end
  end.

(** *** Lines 134-149: the success envelope *)
Definition response_data (prompt_used : string) (generated : value)
    (s3_url style : value) : value :=
  VDict (
    <["success" := VBool true]> (
    <["data" :=
        VDict (<["prompt" := VStr prompt_used]> (
               <["imageBase64" := VStr ("data:image/png;base64," ++ py_str generated)]> (
               <["s3Url" := s3_url]> (
               <["style" := style]> ∅))))]> ∅)).

Definition success_response (prompt_used : string) (generated : value)
    (s3_url style : value) : Response :=
  {| statusCode := 200;
     headers := cors_headers;
     body := json_dumps W (response_data prompt_used generated s3_url style) |}.

(** *** Lines 118-149: generation, upload, answer *)
Definition generate_and_respond (api_key image_data : string) (style : value)
    (mime_type : string) : Response :=
  let '(generated_image_base64, prompt_used) :=
    generate_image_from_sketch api_key image_data style mime_type in
  if negb (truthy generated_image_base64) then
    error_response "Failed to generate image" 500
  else
    let s3_url := upload_to_s3 generated_image_base64 style in
    success_response prompt_used generated_image_base64 s3_url style.

(** *** Lines 26-73: the CanonicalRequest of an envelope,
    [(image_data, style)] *)
Definition normalize (event : value) : flow (value * value) :=
  b ← resolve_body event;
  d ← check_body b;
  Next (get_image_data d, get_style d).

(** *** Lines 75-116: from the CanonicalRequest to the generation call.
    Yields [(api_key, image_data, style, mime_type)]. *)
Definition after_normalize (image_data style : value)
    : flow (string * string * value * string) :=
  _ ← log_length image_data;
  _ ← log_style style;
  api_key ← get_api_key;
  s ← validate_image_data image_data;
  '(payload, mime_type) ← decode_image_data s;
  _ ← log_mime_type s mime_type;
  _ ← log_processing style mime_type;
  Next (api_key, payload, style, mime_type).

(** *** Lines 26-116: everything before the generation call *)
Definition prepare (event : value) : flow (string * string * value * string) :=
  '(image_data, style) ← normalize event;
  after_normalize image_data style.

(** *** The body of the [try] block *)
Definition handler_body (event : value) : flow Response :=
  '(api_key, payload, style, mime_type) ← prepare event;
  Return (generate_and_respond api_key payload style mime_type).

(** *** [lambda_handler]: the [try] block under its umbrella [except] *)
Definition lambda_handler (event : value) : Response :=
  match handler_body event with
  | Next r => r
  | Return r => r
  | Raise msg => error_response msg 500
  end.

End Handler.

(** ** Vocabulary of the properties *)

(** The logical content of a request: an object with the two fields. *)
Definition request_content (image_data style : value) : value :=
  VDict (<["imageData" := image_data]> (<["style" := style]> ∅)).

(** The ten identifiers of the style table. *)
Definition known_styles : list string :=
  [ "realistic"; "anime"; "cartoon"; "oil-painting"; "watercolor";
    "sketch"; "3d-render"; "pixel-art"; "cyberpunk"; "fantasy" ].

(** [os.environ.get(name)] is truthy: set, and not to the empty string. *)
Definition env_set (W : World) (name : string) : bool :=
  match environ W !! name with
  | Some v => negb (String.eqb v "")
  | None => false
  end.

(** The serialiser tells the error envelopes of two messages apart. *)
Definition dumps_distinguishes_errors (W : World) : Prop :=
  ∀ m1 m2 : string,
    json_dumps W (error_data m1) = json_dumps W (error_data m2) → m1 = m2.

(** The part of a string before the first [c], and the part from it on. *)
Fixpoint before (c : ascii) (s : string) : string :=
  match s with
  | EmptyString => EmptyString
  | String a s' => if Ascii.eqb a c then EmptyString else String a (before c s')
  end.

Fixpoint from (c : ascii) (s : string) : string :=
  match s with
  | EmptyString => EmptyString
  | String a s' => if Ascii.eqb a c then s else from c s'
  end.

(** A reply part that carries an image: an object whose [inlineData] is an
    object with a [mimeType] string that begins with [image/] and a
    non-empty [data]. *)
Definition usable_part (p : value) : bool :=
  match p with
  | VDict pd =>
      match pd !! "inlineData" with
      | Some (VDict inline) =>
          match inline !! "mimeType", inline !! "data" with
          | Some (VStr mime), Some img => startswith "image/" mime && truthy img
          | _, _ => false
          end
      | _ => false
      end
  | _ => false
  end.

(** The parts of the first candidate of a reply; none when the reply has
    no candidates or is not shaped as expected. *)
Definition first_candidate_parts (data : value) : list value :=
  match data with
  | VDict d =>
      match d !! "candidates" with
      | Some (VList (VDict cd :: _)) =>
          match cd !! "content" with
          | Some (VDict c) =>
              match c !! "parts" with
              | Some (VList parts) => parts
              | _ => []
              end
          | _ => []
          end
      | _ => []
      end
  | _ => []
  end.

(** The reply has candidates and its first candidate has an image part
    with non-empty data. *)
Definition has_usable_image (data : value) : bool :=
  existsb usable_part (first_candidate_parts data).

(** ** A small concrete world

    A JSON codec for the fragment without string escapes and without
    fractional numbers, and stand-ins for the network, the store and the
    clock.  The theorems below do not depend on it; it is the world in
    which they are run on concrete requests. *)
Module Ref.

Definition dquote : ascii := "034"%char.

Definition quoted (s : string) : string :=
  String dquote (s ++ String dquote EmptyString).

(** Serialiser: [json.dumps] on the fragment (keys in the order of the
    map's enumeration; a float is written as [NaN]). *)
Fixpoint dumps (v : value) : string :=
  match v with
  | VNone => "null"
  | VBool true => "true"
  | VBool false => "false"
  | VInt n => pretty n
  | VFloat _ => "NaN"
  | VStr s => quoted s
  | VList l => "[" ++ String.concat ", " (map dumps l) ++ "]"
  | VDict m =>
      "{" ++ String.concat ", "
               (map (fun kv : string * string => quoted kv.1 ++ ": " ++ kv.2)
                    (map_to_list (dumps <$> m)))
      ++ "}"
  end.

Definition is_ws (c : ascii) : bool :=
  let n := nat_of_ascii c in
  (n =? 32)%nat || (n =? 9)%nat || (n =? 10)%nat || (n =? 13)%nat.

Fixpoint skip_ws (s : string) : string :=
  match s with
  | String c r => if is_ws c then skip_ws r else s
  | EmptyString => EmptyString
  end.

(** After an opening quote: the text up to the closing quote, and what
    follows it.  A backslash is outside the fragment. *)
Fixpoint read_string (s : string) : option (string * string) :=
  match s with
  | EmptyString => None
  | String c r =>
      if Ascii.eqb c dquote then Some (EmptyString, r)
      else if Ascii.eqb c "\" then None
      else '(a, r') ← read_string r; Some (String c a, r')
  end.

Definition digit_of (c : ascii) : option Z :=
  let n := nat_of_ascii c in
  if (48 <=? n)%nat && (n <=? 57)%nat then Some (Z.of_nat (n - 48)) else None.

Fixpoint read_digits (acc : Z) (s : string) : Z * string :=
  match s with
  | String c r =>
      match digit_of c with
      | Some d => read_digits (acc * 10 + d)%Z r
      | None => (acc, s)
      end
  | EmptyString => (acc, EmptyString)
  end.

Definition strip_prefix (p s : string) : option string :=
  if String.prefix p s then
    Some (String.substring (String.length p)
                           (String.length s - String.length p) s)
  else None.

(** An integer, the three literals. *)
Definition read_atom (s : string) : option (value * string) :=
  match strip_prefix "null" s, strip_prefix "true" s, strip_prefix "false" s with
  | Some r, _, _ => Some (VNone, r)
  | _, Some r, _ => Some (VBool true, r)
  | _, _, Some r => Some (VBool false, r)
  | None, None, None =>
      let '(neg, t) := match s with
                       | String c r => if Ascii.eqb c "-" then (true, r) else (false, s)
                       | EmptyString => (false, s)
                       end in
      match t with
      | String c _ =>
          match digit_of c with
          | Some _ =>
              let '(n, r) := read_digits 0 t in
              match r with
              | String c' _ =>
                  if Ascii.eqb c' "." || Ascii.eqb c' "e" || Ascii.eqb c' "E"
                  then None
                  else Some (VInt (if neg then - n else n), r)
              | EmptyString => Some (VInt (if neg then - n else n), r)
              end
          | None => None
          end
      | EmptyString => None
      end
  end.

Fixpoint parse_value (fuel : nat) (s : string) : option (value * string) :=
  match fuel with
  | O => None
  | S fuel' =>
      match skip_ws s with
      | EmptyString => None
      | String c r =>
          if Ascii.eqb c "{" then
            match skip_ws r with
            | String c' r' =>
                if Ascii.eqb c' "}" then Some (VDict ∅, r')
                else parse_members fuel' (String c' r') ∅
            | EmptyString => None
            end
          else if Ascii.eqb c "[" then
            match skip_ws r with
            | String c' r' =>
                if Ascii.eqb c' "]" then Some (VList [], r')
                else parse_elements fuel' (String c' r') []
            | EmptyString => None
            end
          else if Ascii.eqb c dquote then
            '(a, r') ← read_string r; Some (VStr a, r')
          else read_atom (String c r)
      end
  end
with parse_elements (fuel : nat) (s : string) (acc : list value)
    : option (value * string) :=
  match fuel with
  | O => None
  | S fuel' =>
      '(v, r) ← parse_value fuel' s;
      match skip_ws r with
      | String c r' =>
          if Ascii.eqb c "," then parse_elements fuel' r' (acc ++ [v])
          else if Ascii.eqb c "]" then Some (VList (acc ++ [v]), r')
          else None
      | EmptyString => None
      end
  end
with parse_members (fuel : nat) (s : string) (acc : gmap string value)
    : option (value * string) :=
  match fuel with
  | O => None
  | S fuel' =>
      match skip_ws s with
      | String q r =>
          if Ascii.eqb q dquote then
            '(k, r1) ← read_string r;
            match skip_ws r1 with
            | String c r2 =>
                if Ascii.eqb c ":" then
                  '(v, r3) ← parse_value fuel' r2;
                  match skip_ws r3 with
                  | String c' r4 =>
                      if Ascii.eqb c' "," then
                        parse_members fuel' r4 (<[k := v]> acc)
                      else if Ascii.eqb c' "}" then
                        Some (VDict (<[k := v]> acc), r4)
                      else None
                  | EmptyString => None
                  end
                else None
            | EmptyString => None
            end
          else None
      | EmptyString => None
      end
  end.

(** Parser: [json.loads] on the fragment. *)
Definition loads (s : string) : loads_result :=
  match parse_value (2 * String.length s + 2) s with
  | Some (v, r) =>
      match skip_ws r with
      | EmptyString => Parsed v
      | String _ _ => JSONDecodeError "Extra data"
      end
  | None => JSONDecodeError "Expecting value"
  end.

(** [str] of a value that is not a string. *)
Definition repr (v : value) : string :=
  match v with
  | VNone => "None"
  | VBool true => "True"
  | VBool false => "False"
  | _ => dumps v
  end.

(** The standard output of the concrete world: UTF-8, with character 255
    standing for a lone surrogate, the one character it cannot encode. *)
Definition encodes (c : ascii) : bool := negb (Ascii.eqb c "255").

Fixpoint first_bad (pos : nat) (text : string) : nat :=
  match text with
  | EmptyString => pos
  | String c rest =>
      if (nat_of_ascii c <? 128)%nat || encodes c then first_bad (S pos) rest
      else pos
  end.

Definition error_text (text : string) : string :=
  "'utf-8' codec can't encode character '\udcff' in position "
  ++ pretty (first_bad 0 text) ++ ": surrogates not allowed".

(** A world with the codec above, a fixed clock, a store that accepts
    every object and a decoder that accepts every string; the
    environment and the reply of the generation API are the arguments. *)
Definition world (env : gmap string string) (reply : urlopen_result) : World :=
  {| environ := env;
     json_loads := loads;
     json_dumps := dumps;
     py_repr := repr;
     urlopen := fun _ _ => reply;
     strftime_now := "20250101_120000";
     b64decode := fun _ => Some [];
     s3_put_object := fun _ _ _ => true;
     s3_generate_presigned_url := fun bucket key =>
       Some ("https://" ++ bucket ++ ".s3.amazonaws.com/" ++ key ++ "?X-Amz-Expires=3600") ;
     stdout_encodes := encodes;
     encode_error := error_text |}.


Definition env_key : gmap string string := {["GEMINI_API_KEY" := "k"]}.
Definition env_key_bucket : gmap string string :=
  <["S3_BUCKET_NAME" := "sketches"]> env_key.

(** Two envelopes around a request body. *)
Definition envelope_string (c : value) : value :=
  VDict {["body" := VStr (dumps c)]}.

Definition envelope_object (c : value) : value :=
  VDict {["body" := c]}.

(** A reply of the generation API: one candidate with the given parts. *)
Definition reply_with (parts : list value) : value :=
  VDict {["candidates" := VList [
    VDict {["content" := VDict {["parts" := VList parts]}]} ]]}.

Definition text_part (t : string) : value := VDict {["text" := VStr t]}.

Definition inline_part (mime : string) (data : value) : value :=
  VDict {["inlineData" :=
    VDict (<["mimeType" := VStr mime]> (<["data" := data]> ∅))]}.

End Ref.

(** * Properties *)

(** ** Strings: [split_on], [before], [from] *)

#[local] Arguments String.append : simpl nomatch.

Lemma string_app_assoc (a b c : string) : (a ++ b) ++ c = a ++ (b ++ c).
Proof. induction a as [|x a IH]; simpl; [done | by rewrite IH]. Qed.

Lemma count_char_app (c : ascii) (a b : string) :
  count_char c (a ++ b) = count_char c a + count_char c b.
Proof. induction a as [|x a IH]; simpl; [done | rewrite IH; lia]. Qed.

Lemma split_on_length (c : ascii) (s : string) :
  length (split_on c s) = S (count_char c s).
Proof.
  induction s as [|a s IH]; simpl; [done |].
  destruct (Ascii.eqb a c); simpl; [by rewrite IH |].
  destruct (split_on c s) eqn:E; simpl in *; [done | lia].
Qed.

Lemma before_from (c : ascii) (s : string) : s = before c s ++ from c s.
Proof.
  induction s as [|a s IH]; simpl; [done |].
  destruct (Ascii.eqb a c); simpl; [done | by rewrite <- IH].
Qed.

Lemma before_no_sep (c : ascii) (s : string) : count_char c (before c s) = 0.
Proof.
  induction s as [|a s IH]; simpl; [done |].
  destruct (Ascii.eqb a c) eqn:E; simpl; [done | by rewrite E, IH].
Qed.

Lemma from_shape (c : ascii) (s : string) :
  from c s = "" ∨ ∃ r, from c s = String c r.
Proof.
  induction s as [|a s IH]; simpl; [by left |].
  destruct (Ascii.eqb a c) eqn:E; [| done].
  apply Ascii.eqb_eq in E as ->. right; eauto.
Qed.

(** The first piece of a split is the text before the first separator. *)
Lemma split_on_head (c : ascii) (s : string) :
  split_on c s !! 0 = Some (before c s).
Proof.
  induction s as [|a s IH]; simpl; [done |].
  destruct (Ascii.eqb a c); [done |].
  destruct (split_on c s); simpl in *; [done | congruence].
Qed.

Lemma split_on_no_sep (c : ascii) (s : string) :
  count_char c s = 0 → split_on c s = [s].
Proof.
  induction s as [|a s IH]; simpl; [done |].
  destruct (Ascii.eqb a c); simpl; [lia |].
  intros H. by rewrite (IH H).
Qed.

(** A string with exactly one separator splits into the text before it
    and the text after it. *)
Lemma split_on_one_sep (c : ascii) (s : string) :
  count_char c s = 1 →
  ∃ r, from c s = String c r ∧ count_char c r = 0
       ∧ split_on c s = [before c s; r].
Proof.
  induction s as [|a s IH]; simpl; [done |].
  destruct (Ascii.eqb a c) eqn:E; simpl.
  - intros H. apply Ascii.eqb_eq in E as ->.
    exists s. split_and!; [done | lia |].
    rewrite split_on_no_sep by lia. done.
  - intros H. destruct (IH H) as (r & Hf & Hr & Hs).
    exists r. rewrite Hs. done.
Qed.

(** [before] goes through a prefix that holds no separator. *)
Lemma before_app_no_sep (c : ascii) (p s : string) :
  count_char c p = 0 → before c (p ++ s) = p ++ before c s.
Proof.
  induction p as [|a p IH]; simpl; [done |].
  destruct (Ascii.eqb a c); simpl; [lia |].
  intros H. by rewrite (IH H).
Qed.

Lemma prefix_app (p s : string) :
  String.prefix p s = true → ∃ t, s = p ++ t.
Proof.
  revert s. induction p as [|a p IH]; intros s; simpl.
  - intros _. by exists s.
  - destruct s as [|b s]; simpl; [done |].
    destruct (Ascii.ascii_dec a b) as [->|]; [| done].
    intros H. destruct (IH _ H) as [t ->]. by exists t.
Qed.

Lemma prefix_app_true (p t : string) : String.prefix p (p ++ t) = true.
Proof.
  induction p as [|a p IH]; simpl; [by destruct t |].
  destruct (Ascii.ascii_dec a a); done.
Qed.

Lemma split_on_cut (c : ascii) (p r : string) :
  count_char c p = 0 → split_on c (p ++ String c r) = p :: split_on c r.
Proof.
  induction p as [|a p IH]; simpl.
  - intros _. by rewrite Ascii.eqb_refl.
  - destruct (Ascii.eqb a c); simpl; [lia |].
    intros H. by rewrite (IH H).
Qed.

(** ** The data-URL decoder *)

Section Decoder.
Context (W : World).

(** The MIME type read from a string that begins with [data:image]: the
    text [image] and what follows it up to the next colon or semicolon. *)
Lemma mime_of_prefixed (t : string) :
  split_on ":" (before ";" ("data:image" ++ t)) !! 1
  = Some ("image" ++ before ":" (before ";" t)).
Proof.
  rewrite (before_app_no_sep ";" "data:image" t) by reflexivity.
  change ("data:image" ++ before ";" t)
    with ("data" ++ String ":" ("image" ++ before ";" t)).
  rewrite split_on_cut by reflexivity.
  change ((?x :: ?l) !! 1) with (l !! 0).
  rewrite split_on_head.
  by rewrite (before_app_no_sep ":" "image") by reflexivity.
Qed.

(** With the prefix, the decoder never raises: it accepts when there is
    exactly one comma and answers [Invalid data URL format] otherwise. *)
Lemma decode_prefixed (t : string) :
  let s := "data:image" ++ t in
  decode_image_data W s =
    if (count_char "," s =? 1)%nat then
      match from "," s with
      | String _ payload =>
          Next (payload, "image" ++ before ":" (before ";" t))
      | EmptyString => Raise "list index out of range"
      end
    else Return (error_response W "Invalid data URL format" 400).
Proof.
  intros s. unfold decode_image_data, startswith.
  replace (String.prefix "data:image" s) with true
    by (symmetry; apply prefix_app_true).
  cbv zeta. rewrite split_on_length.
  change (S (count_char "," s) =? 2)%nat with (count_char "," s =? 1)%nat.
  destruct (count_char "," s =? 1)%nat eqn:E; [| done].
  apply Nat.eqb_eq in E.
  rewrite split_on_head. unfold s at 1. rewrite mime_of_prefixed.
  destruct (split_on_one_sep _ _ E) as (r & Hf & _ & ->).
  by rewrite Hf.
Qed.

Lemma decode_unprefixed (s : string) :
  startswith "data:image" s = false →
  decode_image_data W s = Next (s, "image/png").
Proof. intros H. unfold decode_image_data. by rewrite H. Qed.

End Decoder.

(** C2, as the code has it: for an [imageData] string that begins with
    [data:image], [split(",")] cuts at every comma, so it yields one part
    more than the string has commas; the decoder answers
    [Invalid data URL format] exactly when the number of commas is not one
    (none, or two and more); when it is one the decoder accepts, and the
    working payload is everything after that comma. *)
Theorem data_url_accepted_iff_one_comma (W : World) (s : string) :
  startswith "data:image" s = true →
  length (split_on "," s) = S (count_char "," s)
  ∧ (decode_image_data W s
       = Return (error_response W "Invalid data URL format" 400)
     ↔ count_char "," s ≠ 1)
  ∧ (count_char "," s = 1 →
     ∃ payload mime,
       decode_image_data W s = Next (payload, mime)
       ∧ s = before "," s ++ String "," payload
       ∧ count_char "," (before "," s) = 0
       ∧ count_char "," payload = 0).
Proof.
  intros Hp. split; [apply split_on_length |].
  destruct (prefix_app _ _ Hp) as [t ->].
  pose proof (decode_prefixed W t) as Hd. cbv zeta in Hd.
  destruct (count_char "," ("data:image" ++ t) =? 1)%nat eqn:E.
  - apply Nat.eqb_eq in E.
    destruct (split_on_one_sep _ _ E) as (r & Hf & Hr & _).
    rewrite Hf in Hd. split.
    + rewrite Hd. split; [done | lia].
    + intros _. exists r, ("image" ++ before ":" (before ";" t)).
      split_and!; [done | | apply before_no_sep | done].
      rewrite <- Hf. apply before_from.
  - apply Nat.eqb_neq in E. split; [by rewrite Hd | done].
Qed.

Lemma data_url_accepted_iff_one_comma_witness :
  let W := Ref.world Ref.env_key UrlRaised in
  let s := "data:image/jpeg;base64,AAAABBBB" in
  startswith "data:image" s = true
  ∧ decode_image_data W s = Next ("AAAABBBB", "image/jpeg")
  ∧ ∃ payload mime,
      decode_image_data W s = Next (payload, mime)
      ∧ s = before "," s ++ String "," payload
      ∧ count_char "," (before "," s) = 0
      ∧ count_char "," payload = 0.
Proof.
  intros W s. split; [reflexivity |]. split; [reflexivity |].
  exact (proj2 (proj2 (data_url_accepted_iff_one_comma W s eq_refl)) eq_refl).
Defined.

(** C2 as stated fails: a string with the prefix and with a comma (two of
    them) is answered with [Invalid data URL format]; the text after its
    first comma is never used as the payload. *)
Lemma data_url_two_commas_rejected :
  let W := Ref.world Ref.env_key UrlRaised in
  let s := "data:image/png;base64,AAAA,BBBB" in
  startswith "data:image" s = true
  ∧ count_char "," s = 2
  ∧ decode_image_data W s
    = Return (error_response W "Invalid data URL format" 400)
  ∧ lambda_handler W (request_content (VStr s) (VStr "anime"))
    = error_response W "Invalid data URL format" 400.
Proof. vm_compute. done. Qed.

(** C3, as the code has it: for an input the decoder accepts, without the
    [data:image] prefix the MIME type is exactly [image/png] and the
    payload is the input; with the prefix the MIME type begins with
    [image] (not necessarily [image/]) and is the text between the first
    colon and the next colon or semicolon of the whole string, or its end
    when there is neither. *)
Theorem decoded_mime_type_shape (W : World) (s payload mime : string) :
  decode_image_data W s = Next (payload, mime) →
  (startswith "data:image" s = false → mime = "image/png" ∧ payload = s)
  ∧ (startswith "data:image" s = true →
     startswith "image" mime = true
     ∧ count_char ":" mime = 0
     ∧ count_char ";" mime = 0
     ∧ ∃ rest, s = "data:" ++ mime ++ rest
               ∧ (rest = "" ∨ (∃ r, rest = String ":" r)
                  ∨ (∃ r, rest = String ";" r))).
Proof.
  intros Hd. split.
  - intros Hp. rewrite (decode_unprefixed W s Hp) in Hd. by simplify_eq.
  - intros Hp. destruct (prefix_app _ _ Hp) as [t ->].
    rewrite (decode_prefixed W t) in Hd.
    destruct (count_char "," ("data:image" ++ t) =? 1)%nat; [| done].
    destruct (from "," ("data:image" ++ t)); simplify_eq.
    set (h := before ";" t).
    assert (Hsemi : count_char ";" (before ":" h) = 0).
    { pose proof (before_no_sep ";" t) as H0. fold h in H0.
      rewrite (before_from ":" h), count_char_app in H0. lia. }
    split_and!.
    + apply (prefix_app_true "image").
    + simpl. apply before_no_sep.
    + simpl. apply Hsemi.
    + exists (from ":" h ++ from ";" t). split.
      * simpl. do 10 f_equal.
        rewrite <- string_app_assoc, <- (before_from ":" h).
        apply before_from.
      * destruct (from_shape ":" h) as [-> | [r ->]].
        -- destruct (from_shape ";" t) as [-> | [r ->]]; simpl; eauto.
        -- right; left. simpl. eauto.
Qed.

Lemma decoded_mime_type_shape_witness :
  let W := Ref.world Ref.env_key UrlRaised in
  let s := "data:image/jpeg;base64,AAAABBBB" in
  decode_image_data W s = Next ("AAAABBBB", "image/jpeg")
  ∧ startswith "image" "image/jpeg" = true
  ∧ count_char ":" "image/jpeg" = 0.
Proof.
  intros W s. split; [reflexivity |].
  pose proof (proj2 (decoded_mime_type_shape W s "AAAABBBB" "image/jpeg"
                       eq_refl) eq_refl) as (H1 & H2 & _).
  exact (conj H1 H2).
Defined.

(** C3 as stated fails: the decoder accepts an input whose MIME type does
    not begin with [image/]. *)
Lemma decoded_mime_type_not_image_slash :
  let W := Ref.world Ref.env_key UrlRaised in
  decode_image_data W "data:imageX;base64,AAAA" = Next ("AAAA", "imageX")
  ∧ startswith "image/" "imageX" = false.
Proof. vm_compute. done. Qed.

(** ** The stages of the handler *)

Section Stages.
Context (W : World).

(** Unfolds the sequencing of [flow] steps. *)
Ltac flow_simpl :=
  unfold mbind, flow_bind in *; simpl in *.

Ltac flow_cases :=
  repeat match goal with
         | H : context [match ?x with _ => _ end] |- _ =>
             destruct x eqn:?; simplify_eq
         end.

Lemma lambda_handler_next (event : value) (api_key payload : string)
    (style : value) (mime_type : string) :
  prepare W event = Next (api_key, payload, style, mime_type) →
  lambda_handler W event
  = generate_and_respond W api_key payload style mime_type.
Proof.
  intros H. unfold lambda_handler, handler_body. rewrite H. done.
Qed.

Lemma lambda_handler_return (event : value) (r : Response) :
  prepare W event = Return r → lambda_handler W event = r.
Proof.
  intros H. unfold lambda_handler, handler_body. rewrite H. done.
Qed.

Lemma lambda_handler_raise (event : value) (msg : string) :
  prepare W event = Raise msg →
  lambda_handler W event = error_response W msg 500.
Proof.
  intros H. unfold lambda_handler, handler_body. rewrite H. done.
Qed.

Lemma prepare_normalized (event image_data style : value) :
  normalize W event = Next (image_data, style) →
  prepare W event = after_normalize W image_data style.
Proof. intros H. unfold prepare. rewrite H. done. Qed.

Lemma prepare_normalize_return (event : value) (r : Response) :
  normalize W event = Return r → prepare W event = Return r.
Proof. intros H. unfold prepare. rewrite H. done. Qed.

(** Every early answer of the normaliser is a 400. *)
Lemma normalize_return (event : value) (r : Response) :
  normalize W event = Return r → ∃ msg, r = error_response W msg 400.
Proof.
  unfold normalize, resolve_body, check_body. intros H. flow_simpl.
  flow_cases; eauto.
Qed.

Lemma get_api_key_set :
  env_set W "GEMINI_API_KEY" = true →
  ∃ k, environ W !! "GEMINI_API_KEY" = Some k ∧ get_api_key W = Next k.
Proof.
  unfold env_set, get_api_key.
  destruct (environ W !! "GEMINI_API_KEY") as [k|]; [| done].
  destruct (String.eqb k ""); [done |]. eauto.
Qed.

Lemma get_api_key_unset :
  env_set W "GEMINI_API_KEY" = false →
  get_api_key W = Return (error_response W "GEMINI_API_KEY not configured" 500).
Proof.
  unfold env_set, get_api_key.
  destruct (environ W !! "GEMINI_API_KEY") as [k|]; [| done].
  by destruct (String.eqb k "").
Qed.

(** Printing: ASCII text is always printable, and a text is printable
    when its pieces are. *)
Lemma printable_app (a b : string) :
  printable W (a ++ b) = printable W a && printable W b.
Proof.
  induction a as [|c a IH]; simpl; [done |].
  by rewrite IH, andb_assoc.
Qed.

Lemma py_print_ok (text : string) :
  printable W text = true → py_print W text = Next tt.
Proof. intros H. unfold py_print. by rewrite H. Qed.


Lemma log_style_ok (style : value) :
  printable W (py_str W style) = true → log_style W style = Next tt.
Proof.
  intros H. apply py_print_ok.
  by rewrite (printable_app "style: "), H.
Qed.



Lemma log_processing_ok (style : value) (mime_type : string) :
  printable W (py_str W style) = true →
  printable W mime_type = true →
  log_processing W style mime_type = Next tt.
Proof.
  intros Hs Hm. apply py_print_ok.
  rewrite (printable_app "Processing sketch with style: "), printable_app,
    (printable_app ", mime: "), Hs, Hm.
  done.
Qed.

Lemma log_length_ok (image_data : value) :
  (truthy image_data = true → is_Some (py_len image_data)) →
  log_length image_data = Next tt.
Proof.
  unfold log_length. destruct (truthy image_data); [| done].
  intros H. by destruct (H eq_refl) as [n ->].
Qed.

Lemma log_length_falsy (image_data : value) :
  truthy image_data = false → log_length image_data = Next tt.
Proof. intros H. apply log_length_ok. by rewrite H. Qed.

Lemma log_length_str (s : string) : log_length (VStr s) = Next tt.
Proof. apply log_length_ok. simpl. eauto. Qed.

(** Every early answer of [prepare] is a 400 or a 500. *)
Lemma prepare_return (event : value) (r : Response) :
  prepare W event = Return r →
  ∃ msg code, r = error_response W msg code ∧ (code = 400 ∨ code = 500)%Z.
Proof.
  unfold prepare. intros H.
  destruct (normalize W event) as [[i st] | r' |] eqn:Hn; flow_simpl;
    [| simplify_eq; destruct (normalize_return _ _ Hn) as [msg ->]; eauto | done].
  unfold after_normalize, log_length, log_style, get_api_key,
    validate_image_data, decode_image_data, log_mime_type, log_processing,
    py_print in H.
  unfold mbind, flow_bind in H.
  repeat match type of H with
         | context [match ?x with _ => _ end] =>
             lazymatch x with
             | context [match _ with _ => _ end] => fail
             | _ => destruct x eqn:?; simpl in H; try discriminate H
             end
         end;
    simplify_eq; eauto.
Qed.

(** The answer after generation: the fixed 500 or the success envelope. *)
Lemma generate_and_respond_cases (api_key payload : string) (style : value)
    (mime_type : string) :
  let '(img, prompt) :=
    generate_image_from_sketch W api_key payload style mime_type in
  generate_and_respond W api_key payload style mime_type
  = if truthy img then
      success_response W prompt img (upload_to_s3 W img style) style
    else error_response W "Failed to generate image" 500.
Proof.
  unfold generate_and_respond.
  destruct (generate_image_from_sketch W api_key payload style mime_type)
    as [img prompt].
  by destruct (truthy img).
Qed.

End Stages.

(** ** Order of the checks *)

Section Checks.
Context (W : World).

Lemma error_response_inj (m1 m2 : string) (c1 c2 : Z) :
  dumps_distinguishes_errors W →
  error_response W m1 c1 = error_response W m2 c2 → m1 = m2 ∧ c1 = c2.
Proof.
  intros Hinj H. unfold error_response in H.
  injection H as Hc Hb. split; [by apply Hinj | done].
Qed.

(** A normalised request with no key configured, an [imageData] that
    the log line can measure and a style that it can print is answered
    with the configuration error. *)
Lemma unset_key_after_normalize (image_data style : value) :
  env_set W "GEMINI_API_KEY" = false →
  (truthy image_data = true → is_Some (py_len image_data)) →
  printable W (py_str W style) = true →
  after_normalize W image_data style
  = Return (error_response W "GEMINI_API_KEY not configured" 500).
Proof.
  intros Hk Hl Hs. unfold after_normalize.
  rewrite (log_length_ok _ Hl), (log_style_ok W _ Hs), (get_api_key_unset W Hk).
  done.
Qed.


(** With a key, the answer of a normalised request to a falsy
    [imageData]. *)
Lemma falsy_after_normalize (image_data style : value) :
  env_set W "GEMINI_API_KEY" = true →
  printable W (py_str W style) = true →
  truthy image_data = false →
  after_normalize W image_data style
  = Return (error_response W "No image data provided" 400).
Proof.
  intros Hk Hs Hf. unfold after_normalize, validate_image_data.
  destruct (get_api_key_set W Hk) as (k & _ & ->).
  rewrite (log_length_falsy _ Hf), (log_style_ok W _ Hs), Hf. done.
Qed.

(** With a key, the answer to a non-empty string of fewer than ten
    characters. *)
Lemma short_after_normalize (s : string) (style : value) :
  env_set W "GEMINI_API_KEY" = true →
  printable W (py_str W style) = true →
  0 < String.length s < 10 →
  after_normalize W (VStr s) style
  = Return (error_response W "imageData is too short" 400).
Proof.
  intros Hk Hst [H0 H10]. unfold after_normalize, validate_image_data.
  destruct (get_api_key_set W Hk) as (k & _ & ->).
  rewrite log_length_str, (log_style_ok W _ Hst). simpl.
  destruct s as [|a s]; [simpl in H0; lia |]. simpl.
  destruct (Nat.ltb_spec (S (String.length s)) 10) as [_ | Hge]; [done |].
  simpl in H10. lia.
Qed.

End Checks.

(** C1, as the code has it: with [GEMINI_API_KEY] unset or empty, an
    invocation whose envelope normalises to a request is answered with
    500 [GEMINI_API_KEY not configured] for every style that the log line
    of line 78 can print and for every [imageData] that is falsy
    (missing, null, false, zero, empty) or a string, list or object of any
    content; an invocation whose envelope the normaliser rejects keeps
    the normaliser's 400.  The key is read after normalisation and the
    two log lines, and before the validation of [imageData]. *)
Theorem missing_api_key_after_normalization (W : World) (event : value) :
  env_set W "GEMINI_API_KEY" = false →
  (∀ image_data style,
     normalize W event = Next (image_data, style) →
     (truthy image_data = true → is_Some (py_len image_data)) →
     printable W (py_str W style) = true →
     lambda_handler W event
     = error_response W "GEMINI_API_KEY not configured" 500)
  ∧ (∀ r, normalize W event = Return r →
          lambda_handler W event = r ∧ statusCode r = 400%Z).
Proof.
  intros Hk. split.
  - intros i st Hn Hl Hs. apply lambda_handler_return.
    rewrite (prepare_normalized W _ _ _ Hn).
    by apply unset_key_after_normalize.
  - intros r Hn. split.
    + by apply lambda_handler_return, prepare_normalize_return.
    + by destruct (normalize_return W _ _ Hn) as [msg ->].
Qed.

Lemma missing_api_key_after_normalization_witness :
  let W := Ref.world ∅ UrlRaised in
  let event := Ref.envelope_string (request_content (VStr "xyz") (VList [])) in
  env_set W "GEMINI_API_KEY" = false
  ∧ normalize W event = Next (VStr "xyz", VList [])
  ∧ lambda_handler W event
    = error_response W "GEMINI_API_KEY not configured" 500.
Proof.
  intros W event. split; [reflexivity |]. split; [vm_compute; reflexivity |].
  apply (proj1 (missing_api_key_after_normalization W event eq_refl)
           (VStr "xyz") (VList [])).
  - vm_compute. reflexivity.
  - simpl. eauto.
  - vm_compute. reflexivity.
Defined.

(** C1 as stated fails: with no key in the environment, an envelope that
    is not an object is answered with 400 [Invalid event format], and a
    [body] that is not JSON with 400 as well. *)
Lemma missing_api_key_malformed_envelope_400 :
  let W := Ref.world ∅ UrlRaised in
  env_set W "GEMINI_API_KEY" = false
  ∧ lambda_handler W (VList [])
    = error_response W "Invalid event format" 400
  ∧ statusCode (lambda_handler W (VDict {["body" := VStr "{"]})) = 400%Z.
Proof. vm_compute. done. Qed.

(** C4, as the code has it: with the key configured, a request whose
    [imageData] is a non-empty string of fewer than ten characters is
    answered with 400 [imageData is too short], for every style that the
    log line of line 78 can print. *)
Theorem short_image_data_rejected (W : World) (event : value) (s : string)
    (style : value) :
  env_set W "GEMINI_API_KEY" = true →
  normalize W event = Next (VStr s, style) →
  printable W (py_str W style) = true →
  0 < String.length s < 10 →
  lambda_handler W event = error_response W "imageData is too short" 400.
Proof.
  intros Hk Hn Hst Hs. apply lambda_handler_return.
  rewrite (prepare_normalized W _ _ _ Hn).
  by apply short_after_normalize.
Qed.

Lemma short_image_data_rejected_witness :
  let W := Ref.world Ref.env_key UrlRaised in
  let event := Ref.envelope_object (request_content (VStr "iVBORw0KG") (VInt 7)) in
  env_set W "GEMINI_API_KEY" = true
  ∧ normalize W event = Next (VStr "iVBORw0KG", VInt 7)
  ∧ lambda_handler W event = error_response W "imageData is too short" 400.
Proof.
  intros W event. split; [reflexivity |]. split; [vm_compute; reflexivity |].
  apply (short_image_data_rejected W event "iVBORw0KG" (VInt 7)).
  - reflexivity.
  - vm_compute. reflexivity.
  - vm_compute. reflexivity.
  - simpl. lia.
Defined.

(** C4 as stated fails at the string of length zero: it is answered with
    [No image data provided], not with [imageData is too short]. *)
Lemma empty_image_data_not_too_short :
  let W := Ref.world Ref.env_key UrlRaised in
  let event := request_content (VStr "") (VStr "anime") in
  String.length "" < 10
  ∧ lambda_handler W event = error_response W "No image data provided" 400
  ∧ lambda_handler W event ≠ error_response W "imageData is too short" 400.
Proof. vm_compute. split; [lia |]. split; [done | discriminate]. Qed.

(** The serialiser of the concrete world tells error envelopes apart. *)
Lemma string_length_app (a b : string) :
  String.length (a ++ b) = String.length a + String.length b.
Proof. induction a as [|x a IH]; simpl; [done | by rewrite IH]. Qed.

Lemma string_app_inv_tail (a b t : string) : a ++ t = b ++ t → a = b.
Proof.
  revert b. induction a as [|x a IH]; intros [|y b] H; simpl in *.
  - done.
  - apply (f_equal String.length) in H. simpl in H.
    rewrite string_length_app in H. lia.
  - apply (f_equal String.length) in H. simpl in H.
    rewrite string_length_app in H. lia.
  - injection H as -> H. f_equal. by apply IH.
Qed.

Lemma ref_dumps_distinguishes_errors (env : gmap string string)
    (reply : urlopen_result) :
  dumps_distinguishes_errors (Ref.world env reply).
Proof.
  intros m1 m2 H. vm_compute in H.
  repeat match type of H with
         | String _ _ = String _ _ => injection H as H
         end.
  by do 2 apply string_app_inv_tail in H.
Qed.

(** C10, as the code has it: a request whose [imageData] is falsy and not
    a string (null, false, zero, an empty list or object) is stopped by
    the emptiness test of the validation, which comes before the type
    test; with the API key configured and a style that the log line of
    line 78 can print, the handler answers it with 400
    [No image data provided]; and, for a serialiser that tells error
    envelopes apart, the handler answers 400 [imageData must be a string]
    only to a request whose [imageData] is truthy and not a string. *)
Theorem falsy_image_data_is_empty_not_invalid (W : World) :
  (∀ event image_data style,
     normalize W event = Next (image_data, style) →
     truthy image_data = false →
     is_str image_data = false →
     validate_image_data W image_data
     = Return (error_response W "No image data provided" 400)
     ∧ (env_set W "GEMINI_API_KEY" = true →
        printable W (py_str W style) = true →
        lambda_handler W event
        = error_response W "No image data provided" 400))
  ∧ (dumps_distinguishes_errors W →
     ∀ event,
       lambda_handler W event
       = error_response W "imageData must be a string" 400 →
       ∃ image_data style,
         normalize W event = Next (image_data, style)
         ∧ truthy image_data = true
         ∧ is_str image_data = false).
Proof.
  split.
  - intros event i st Hn Hf _. split.
    + unfold validate_image_data. by rewrite Hf.
    + intros Hk Hs. apply lambda_handler_return.
      rewrite (prepare_normalized W _ _ _ Hn).
      by apply falsy_after_normalize.
  - intros Hinj event H.
    destruct (prepare W event) as [[[[k p] st] m] | r | msg] eqn:Hp.
    + rewrite (lambda_handler_next W _ _ _ _ _ Hp) in H.
      pose proof (generate_and_respond_cases W k p st m) as Hc.
      destruct (generate_image_from_sketch W k p st m) as [img prompt].
      rewrite Hc in H. apply (f_equal statusCode) in H.
      destruct (truthy img); simpl in H; lia.
    + rewrite (lambda_handler_return W _ _ Hp) in H. subst r.
      unfold prepare in Hp.
      destruct (normalize W event) as [[i st] | r' |] eqn:Hn.
      * exists i, st. split; [done |].
        unfold mbind, flow_bind in Hp. simpl in Hp.
        unfold after_normalize, log_length, log_style, get_api_key,
          validate_image_data, decode_image_data, log_mime_type,
          log_processing, py_print in Hp.
        unfold mbind, flow_bind in Hp.
        destruct (truthy i) eqn:Ht; simpl in Hp;
          repeat match type of Hp with
                 | context [match ?x with _ => _ end] =>
                     lazymatch x with
                     | context [match _ with _ => _ end] => fail
                     | _ => destruct x eqn:?; simpl in Hp; try discriminate Hp
                     end
                 end;
          first [ done
                | match type of Hp with
                  | Return ?a = Return ?b =>
                      assert (a = b) as Hr by congruence;
                      apply (error_response_inj W _ _ _ _ Hinj) in Hr as [Hm Hc];
                      by simplify_eq
                  end ].
      * unfold mbind, flow_bind in Hp. simpl in Hp. simplify_eq.
        unfold normalize, resolve_body, check_body in Hn.
        unfold mbind, flow_bind in Hn.
        repeat match type of Hn with
               | context [match ?x with _ => _ end] =>
                   lazymatch x with
                   | context [match _ with _ => _ end] => fail
                   | _ => destruct x eqn:?; simpl in Hn; try discriminate Hn
                   end
               end;
          match type of Hn with
          | Return ?a = Return ?b =>
              assert (a = b) as Hr by congruence;
              apply (error_response_inj W _ _ _ _ Hinj) in Hr as [Hm Hc];
              by simplify_eq
          end.
      * unfold mbind, flow_bind in Hp. simpl in Hp. discriminate.
    + rewrite (lambda_handler_raise W _ _ Hp) in H.
      apply (f_equal statusCode) in H. simpl in H. lia.
Qed.

Lemma falsy_image_data_is_empty_not_invalid_witness :
  let W := Ref.world Ref.env_key UrlRaised in
  let falsy := request_content (VInt 0) (VStr "anime") in
  let truthy_list := request_content (VList [VInt 1]) (VStr "anime") in
  (normalize W falsy = Next (VInt 0, VStr "anime")
   ∧ lambda_handler W falsy = error_response W "No image data provided" 400)
  ∧ (lambda_handler W truthy_list
     = error_response W "imageData must be a string" 400
     ∧ ∃ image_data style,
         normalize W truthy_list = Next (image_data, style)
         ∧ truthy image_data = true
         ∧ is_str image_data = false).
Proof.
  intros W falsy truthy_list.
  pose proof (falsy_image_data_is_empty_not_invalid W) as [Hfalsy Honly].
  split.
  - assert (Hn : normalize W falsy = Next (VInt 0, VStr "anime"))
      by (vm_compute; reflexivity).
    split; [exact Hn |].
    exact (proj2 (Hfalsy falsy (VInt 0) (VStr "anime") Hn eq_refl eq_refl)
                 eq_refl eq_refl).
  - assert (Hr : lambda_handler W truthy_list
                 = error_response W "imageData must be a string" 400)
      by (vm_compute; reflexivity).
    split; [exact Hr |].
    exact (Honly (ref_dumps_distinguishes_errors _ _) truthy_list Hr).
Defined.

(** C10 as stated fails when the key is not configured: the request with
    [imageData] zero is answered with the configuration error, which is
    read before the validation, and not with [No image data provided]. *)
Lemma falsy_image_data_without_key :
  let W := Ref.world ∅ UrlRaised in
  let event := request_content (VInt 0) (VStr "anime") in
  normalize W event = Next (VInt 0, VStr "anime")
  ∧ truthy (VInt 0) = false
  ∧ is_str (VInt 0) = false
  ∧ lambda_handler W event
    = error_response W "GEMINI_API_KEY not configured" 500
  ∧ lambda_handler W event ≠ error_response W "No image data provided" 400.
Proof. vm_compute. by split_and!. Qed.

(** The log line of line 77 measures a truthy [imageData] before any
    test: a number or a boolean has no length, and the umbrella [except]
    answers with the text of the [TypeError]. *)
Example truthy_number_raises_in_log_line :
  let W := Ref.world Ref.env_key UrlRaised in
  lambda_handler W (request_content (VInt 5) (VStr "anime"))
  = error_response W "object of type 'int' has no len()" 500.
Proof. vm_compute. reflexivity. Qed.

(** ** Envelope shapes *)

Lemma lambda_handler_normalize_eq (W : World) (e1 e2 : value) :
  normalize W e1 = normalize W e2 →
  lambda_handler W e1 = lambda_handler W e2.
Proof.
  intros H. unfold lambda_handler, handler_body, prepare. by rewrite H.
Qed.

Lemma normalize_request_content (W : World) (image_data style : value) :
  normalize W (request_content image_data style) = Next (image_data, style).
Proof. reflexivity. Qed.

(** An envelope with a [body] field normalises as its body does, when the
    body is an object or a string that parses to one. *)
Lemma normalize_body_object (W : World) (ev d : gmap string value) :
  ev !! "body" = Some (VDict d) →
  normalize W (VDict ev) = Next (get_image_data d, get_style d).
Proof. intros H. unfold normalize, resolve_body. rewrite H. done. Qed.

Lemma normalize_body_string (W : World) (ev d : gmap string value)
    (s : string) :
  ev !! "body" = Some (VStr s) →
  json_loads W s = Parsed (VDict d) →
  normalize W (VDict ev) = Next (get_image_data d, get_style d).
Proof. intros H Hj. unfold normalize, resolve_body. rewrite H, Hj. done. Qed.

(** C5: for a request content [{imageData, style}], an envelope whose
    [body] is a string that [json.loads] reads as the content, an envelope
    whose [body] is the content as an object, and the content passed as
    the envelope itself normalise to the same CanonicalRequest, and the
    handler gives the three the same response. *)
Theorem envelope_shapes_agree (W : World) (ev_string ev_object : gmap string value)
    (s : string) (image_data style : value) :
  json_loads W s = Parsed (request_content image_data style) →
  ev_string !! "body" = Some (VStr s) →
  ev_object !! "body" = Some (request_content image_data style) →
  let direct := request_content image_data style in
  normalize W (VDict ev_string) = Next (image_data, style)
  ∧ normalize W (VDict ev_object) = Next (image_data, style)
  ∧ normalize W direct = Next (image_data, style)
  ∧ lambda_handler W (VDict ev_string) = lambda_handler W direct
  ∧ lambda_handler W (VDict ev_object) = lambda_handler W direct.
Proof.
  intros Hj Hs Ho direct.
  assert (H1 : normalize W (VDict ev_string) = Next (image_data, style))
    by exact (normalize_body_string W _ _ _ Hs Hj).
  assert (H2 : normalize W (VDict ev_object) = Next (image_data, style))
    by exact (normalize_body_object W _ _ Ho).
  pose proof (normalize_request_content W image_data style) as H3.
  subst direct.
  split_and!; try done; apply lambda_handler_normalize_eq; congruence.
Qed.

Lemma envelope_shapes_agree_witness :
  let W := Ref.world Ref.env_key_bucket
             (UrlBody (Ref.dumps (Ref.reply_with
                [Ref.text_part "done"; Ref.inline_part "image/png" (VStr "QUJD")]))) in
  let image_data := VStr "data:image/jpeg;base64,AAAA" in
  let style := VStr "watercolor" in
  let c := request_content image_data style in
  json_loads W (Ref.dumps c) = Parsed c
  ∧ normalize W (Ref.envelope_string c) = Next (image_data, style)
  ∧ lambda_handler W (Ref.envelope_string c) = lambda_handler W c
  ∧ lambda_handler W (Ref.envelope_object c) = lambda_handler W c
  ∧ statusCode (lambda_handler W c) = 200%Z.
Proof.
  intros W image_data style c.
  assert (Hj : json_loads W (Ref.dumps c) = Parsed c)
    by (vm_compute; reflexivity).
  destruct (envelope_shapes_agree W {["body" := VStr (Ref.dumps c)]}
              {["body" := c]} (Ref.dumps c) image_data style Hj
              (lookup_singleton_eq _ _) (lookup_singleton_eq _ _))
    as (H1 & _ & _ & H4 & H5).
  split_and!; [exact Hj | exact H1 | exact H4 | exact H5 |].
  vm_compute. reflexivity.
Defined.

(** ** The style table *)

(** The table has exactly the ten identifiers. *)
Lemma style_prompts_unknown (s : string) :
  s ∉ known_styles → style_prompts !! s = None.
Proof.
  unfold known_styles. rewrite !not_elem_of_cons.
  intros (?&?&?&?&?&?&?&?&?&?&_).
  unfold style_prompts. by rewrite !lookup_insert_ne by done.
Qed.

Lemma style_prompts_known (s : string) :
  s ∈ known_styles → is_Some (style_prompts !! s).
Proof.
  unfold known_styles. rewrite !elem_of_cons, elem_of_nil.
  intros H. destruct_or!; try done; subst; vm_compute; eauto.
Qed.

(** C9, as the code has it: for a style that is a string, or any other
    hashable value (null, a boolean, a number), and is not one of the ten
    identifiers of the table, prompt construction does not fail: the
    description is the generic phrase, and the request is sent with the
    fixed template around it. *)
Theorem unknown_style_generic_prompt (W : World) (api_key sketch_data : string)
    (style : value) (mime_type : string) :
  hashable style = true →
  (∀ s, style = VStr s → s ∉ known_styles) →
  style_desc_of style = Some "high quality artistic style"
  ∧ generate_image_from_sketch W api_key sketch_data style mime_type
    = generate_with_prompt W api_key sketch_data mime_type
        "Transform this sketch into a beautiful image, high quality artistic style, masterpiece quality, professional artwork".
Proof.
  intros Hh Hs.
  assert (Hd : style_desc_of style = Some "high quality artistic style").
  { destruct style; try done. simpl.
    by rewrite (style_prompts_unknown s (Hs s eq_refl)). }
  split; [done |].
  unfold generate_image_from_sketch. by rewrite Hd.
Qed.

Lemma impressionist_unknown : "impressionist" ∉ known_styles.
Proof. apply (bool_decide_unpack _). vm_compute. exact I. Qed.

Lemma unknown_style_generic_prompt_witness :
  let reply := Ref.dumps (Ref.reply_with [Ref.inline_part "image/png" (VStr "QUJD")]) in
  let W := Ref.world Ref.env_key (UrlBody reply) in
  let style := VStr "impressionist" in
  hashable style = true
  ∧ generate_image_from_sketch W "k" "AAAAAAAAAAAA" style "image/png"
    = (VStr "QUJD",
       "Transform this sketch into a beautiful image, high quality artistic style, masterpiece quality, professional artwork").
Proof.
  intros reply W style. split; [reflexivity |].
  rewrite (proj2 (unknown_style_generic_prompt W "k" "AAAAAAAAAAAA" style
                    "image/png" eq_refl
                    ltac:(intros s [= <-]; exact impressionist_unknown))).
  vm_compute. reflexivity.
Defined.

(** C9 as stated fails at a style that is a list: it is not one of the
    ten identifiers, the table lookup raises, no request is sent, and the
    handler answers 500 although the API would have returned an image. *)
Lemma unhashable_style_fails :
  let reply := Ref.dumps (Ref.reply_with [Ref.inline_part "image/png" (VStr "QUJD")]) in
  let W := Ref.world Ref.env_key (UrlBody reply) in
  let image := VStr "AAAAAAAAAAAA" in
  style_desc_of (VList []) = None
  ∧ generate_image_from_sketch W "k" "AAAAAAAAAAAA" (VList []) "image/png"
    = (VNone, "")
  ∧ lambda_handler W (request_content image (VList []))
    = error_response W "Failed to generate image" 500
  ∧ statusCode (lambda_handler W (request_content image (VStr "impressionist")))
    = 200%Z.
Proof. vm_compute. done. Qed.

(** ** Reading the reply of the generation API *)

(** The generator's condition holds of objects only, with an [inlineData]
    object whose [mimeType] is a string that begins with [image/]. *)
Lemma is_image_part_true (p : value) :
  is_image_part p = Some true →
  ∃ pd inline mime,
    p = VDict pd
    ∧ pd !! "inlineData" = Some (VDict inline)
    ∧ inline !! "mimeType" = Some (VStr mime)
    ∧ startswith "image/" mime = true.
Proof.
  unfold is_image_part. intros H.
  destruct p as [| | | | s | l | pd]; simpl in H; try discriminate H.
  - unfold mbind, option_bind in H. simpl in H.
    destruct (is_substring "inlineData" s); discriminate H.
  - unfold mbind, option_bind in H. simpl in H.
    destruct (existsb _ l); discriminate H.
  - unfold mbind, option_bind in H. simpl in H.
    destruct (pd !! "inlineData") as [inl|] eqn:Hin.
    2: { rewrite bool_decide_eq_false_2 in H by (by intros [??]).
         discriminate H. }
    rewrite bool_decide_eq_true_2 in H by eauto.
    destruct inl as [| | | | | | inline]; simpl in H; try discriminate H.
    destruct (inline !! "mimeType") as [[| | | | mime | |]|] eqn:Hm;
      simpl in H; try discriminate H.
    exists pd, inline, mime. split_and!; try done. congruence.
Qed.

(** What [next] returns is the first part that satisfies the condition. *)
Lemma find_image_part_found (parts : list value) (p : value) :
  find_image_part parts = Some (Some p) →
  ∃ pre post,
    parts = (pre ++ p :: post)%list
    ∧ Forall (λ q, is_image_part q = Some false) pre
    ∧ is_image_part p = Some true.
Proof.
  induction parts as [|q parts IH]; simpl; [done |].
  intros H. destruct (is_image_part q) as [[|]|] eqn:Hq; simpl in H;
    [| | done].
  - simplify_eq. exists [], parts. by split_and!.
  - destruct (IH H) as (pre & post & -> & Hpre & Hp).
    exists (q :: pre), post. split_and!; [done | by constructor | done].
Qed.

Lemma find_image_part_strings (items : list value) (p : value) :
  Forall (λ q, is_str q = true) items →
  find_image_part items ≠ Some (Some p).
Proof.
  intros Hall H.
  destruct (find_image_part_found _ _ H) as (pre & post & -> & _ & Hp).
  destruct (is_image_part_true _ Hp) as (pd & ? & ? & -> & _).
  apply Forall_app in Hall as [_ Hall]. by inversion Hall.
Qed.

Lemma chars_of_strings (s : string) : Forall (λ q, is_str q = true) (chars_of s).
Proof. induction s; simpl; by constructor. Qed.

Lemma keys_strings (l : list string) :
  Forall (λ q, is_str q = true) (VStr <$> l).
Proof. induction l; simpl; by constructor. Qed.

(** The image taken from a part is the non-empty [data] of its
    [inlineData]. *)
Lemma image_of_part_found (p img : value) :
  image_of_part p = Some (Some img) →
  ∃ pd inline,
    p = VDict pd
    ∧ pd !! "inlineData" = Some (VDict inline)
    ∧ inline !! "data" = Some img
    ∧ truthy img = true.
Proof.
  unfold image_of_part. intros H.
  destruct (truthy p); [| discriminate H].
  unfold mbind, option_bind in H.
  destruct p as [| | | | | | pd]; simpl in H; try discriminate H.
  destruct (pd !! "inlineData") as [[| | | | | | inline]|] eqn:Hin;
    simpl in H; try discriminate H.
  destruct (inline !! "data") as [v|] eqn:Hd; simpl in H;
    [| discriminate H].
  destruct (truthy v) eqn:Ht; [| discriminate H].
  destruct (py_len v); simpl in H; [| discriminate H].
  simplify_eq. eauto 10.
Qed.

(** An image comes out of a reply only along one path: the reply is an
    object, its [candidates] a list that begins with an object, whose
    [content] is an object with a list of [parts]; the image is the
    non-empty [data] of the first part that satisfies the condition. *)
Lemma scan_response_found (data img : value) :
  scan_response data = Some (Some img) →
  ∃ pre p post pd inline mime,
    first_candidate_parts data = (pre ++ p :: post)%list
    ∧ Forall (λ q, is_image_part q = Some false) pre
    ∧ p = VDict pd
    ∧ pd !! "inlineData" = Some (VDict inline)
    ∧ inline !! "mimeType" = Some (VStr mime)
    ∧ startswith "image/" mime = true
    ∧ inline !! "data" = Some img
    ∧ truthy img = true.
Proof.
  unfold scan_response. intros H.
  destruct data as [| | | | s | l | d];
    try (unfold py_contains in H; simpl in H; discriminate H).
  - unfold mbind, option_bind in H. simpl in H.
    destruct (is_substring "candidates" s); discriminate H.
  - unfold mbind, option_bind in H. simpl in H.
    destruct (existsb _ l); discriminate H.
  - unfold mbind, option_bind in H. simpl in H.
    destruct (d !! "candidates") as [cands|] eqn:Hc; simpl in H;
      [| discriminate H].
    destruct (py_len cands) as [n|] eqn:Hn; simpl in H; [| done].
    destruct (0 <? n)%nat; simpl in H; [| done].
    destruct (py_first cands) as [cand|] eqn:Hf; simpl in H; [| done].
    destruct cand as [| | | | | | cd]; try done. simpl in H.
    assert (Hcl : ∃ rest, cands = VList (VDict cd :: rest)).
    { destruct cands as [| | | | cs | cl |]; simpl in Hf; try done.
      - destruct cs; simpl in Hf; simplify_eq.
      - destruct cl as [|c0 cl]; simpl in Hf; simplify_eq. eauto. }
    destruct Hcl as [rest ->].
    destruct (cd !! "content") as [[| | | | | | c]|] eqn:Hcont;
      simpl in H; try done.
    destruct (c !! "parts") as [[| | | | ks | parts | kd]|] eqn:Hparts;
      simpl in H; try done.
    + destruct (find_image_part (chars_of ks)) as [[p|]|] eqn:Hfind;
        simpl in H; try done.
      by destruct (find_image_part_strings _ p (chars_of_strings ks)).
    + destruct (find_image_part parts) as [[p|]|] eqn:Hfind;
        simpl in H; try done.
      destruct (find_image_part_found _ _ Hfind)
        as (pre & post & -> & Hpre & Hp).
      destruct (is_image_part_true _ Hp)
        as (pd & inline & mime & -> & Hin & Hm & Hs).
      destruct (image_of_part_found _ _ H)
        as (pd' & inline' & Heq & Hin' & Hd & Ht).
      injection Heq as <-. rewrite Hin in Hin'. injection Hin' as <-.
      exists pre, (VDict pd), post, pd, inline, mime.
      split_and!; try done.
      unfold first_candidate_parts. by rewrite Hc, Hcont, Hparts.
    + destruct (find_image_part _) as [[p|]|] eqn:Hfind in H;
        simpl in H; try done.
      by destruct (find_image_part_strings _ p
                     (keys_strings (map_to_list kd).*1)).
Qed.

(** An image that comes out of a reply witnesses a usable part. *)
Lemma scan_response_usable (data img : value) :
  scan_response data = Some (Some img) → has_usable_image data = true.
Proof.
  intros H.
  destruct (scan_response_found _ _ H)
    as (pre & p & post & pd & inline & mime & Hparts & _ & -> & Hin & Hm & Hs & Hd & Ht).
  unfold has_usable_image. rewrite Hparts, existsb_app. simpl.
  rewrite Hin, Hm, Hd, Hs, Ht. simpl. by rewrite orb_true_r.
Qed.

(** ** Generation *)

Section Generation.
Context (W : World).

(** A truthy first component of [generate_with_prompt] is an image that
    [scan_response] took from the parsed reply; the second component is
    then the prompt. *)
Lemma generate_with_prompt_image (api_key sketch_data mime_type prompt : string)
    (img : value) (prompt' : string) :
  generate_with_prompt W api_key sketch_data mime_type prompt = (img, prompt') →
  truthy img = true →
  prompt' = prompt
  ∧ ∃ text data,
      urlopen W (gemini_url api_key)
        (json_dumps W (gemini_payload prompt mime_type sketch_data))
      = UrlBody text
      ∧ json_loads W text = Parsed data
      ∧ scan_response data = Some (Some img).
Proof.
  unfold generate_with_prompt. intros H Ht.
  destruct (urlopen W _ _) as [text| |] eqn:Hu;
    [| by simplify_eq | by simplify_eq].
  destruct (json_loads W text) as [data| |] eqn:Hj;
    [| by simplify_eq | by simplify_eq].
  destruct (scan_response data) as [[img0|]|] eqn:Hs;
    [| by simplify_eq | by simplify_eq].
  simplify_eq. eauto 10.
Qed.

Lemma generate_image_from_sketch_image (api_key sketch_data : string)
    (style : value) (mime_type : string) (img : value) (prompt : string) :
  generate_image_from_sketch W api_key sketch_data style mime_type
  = (img, prompt) →
  truthy img = true →
  ∃ style_desc text data,
    style_desc_of style = Some style_desc
    ∧ prompt = full_prompt_of style_desc
    ∧ urlopen W (gemini_url api_key)
        (json_dumps W (gemini_payload prompt mime_type sketch_data))
      = UrlBody text
    ∧ json_loads W text = Parsed data
    ∧ scan_response data = Some (Some img).
Proof.
  unfold generate_image_from_sketch. intros H Ht.
  destruct (style_desc_of style) as [desc|] eqn:Hd; [| by simplify_eq].
  destruct (generate_with_prompt_image _ _ _ _ _ _ H Ht)
    as (-> & text & data & Hu & Hj & Hs).
  eauto 10.
Qed.

(** The first component of [generate_image_from_sketch] is an image or
    [None]. *)
Lemma generate_image_from_sketch_none (api_key sketch_data : string)
    (style : value) (mime_type : string) :
  let r := generate_image_from_sketch W api_key sketch_data style mime_type in
  truthy r.1 = false → r.1 = VNone.
Proof.
  unfold generate_image_from_sketch, generate_with_prompt. simpl.
  destruct (style_desc_of style) as [desc|]; [| done].
  destruct (urlopen W _ _) as [text| |]; [| done | done].
  destruct (json_loads W text) as [data| |]; [| done | done].
  destruct (scan_response data) as [[img0|]|] eqn:Hs; [| done | done].
  simpl. intros Ht.
  destruct (scan_response_found _ _ Hs) as (?&?&?&?&?&?&?&?&?&?&?&?&?&Ht').
  congruence.
Qed.

(** The error envelope has two fields, [success] and [error]. *)
Lemma error_data_fields (msg key : string) (v : value) :
  py_getitem (error_data msg) key = Some v →
  (key = "success" ∧ v = VBool false) ∨ (key = "error" ∧ v = VStr msg).
Proof.
  unfold error_data, py_getitem. intros H.
  apply lookup_insert_Some in H as [[<- <-] | [_ H]]; [by left |].
  apply lookup_insert_Some in H as [[<- <-] | [_ H]]; [by right |].
  by rewrite lookup_empty in H.
Qed.

End Generation.

(** C7: when the reply of the generation API to the request that was
    sent (the prompt built from the style, the decoded image) has no
    candidates, or its first candidate has no part with a MIME type that
    begins with [image/] and non-empty inline data, the generation client
    returns no image and the handler answers with status 500 and the
    serialisation of the two-field object
    [{success: false, error: "Failed to generate image"}]: no field of it
    holds the prompt. *)
Theorem no_image_in_reply_is_failure (W : World) (event : value)
    (api_key payload : string) (style : value) (mime_type : string)
    (style_desc text : string) (data : value) :
  prepare W event = Next (api_key, payload, style, mime_type) →
  style_desc_of style = Some style_desc →
  urlopen W (gemini_url api_key)
    (json_dumps W (gemini_payload (full_prompt_of style_desc) mime_type payload))
  = UrlBody text →
  json_loads W text = Parsed data →
  has_usable_image data = false →
  let answer : gmap string value :=
    <["success" := VBool false]>
      (<["error" := VStr "Failed to generate image"]> ∅) in
  (generate_image_from_sketch W api_key payload style mime_type).1 = VNone
  ∧ statusCode (lambda_handler W event) = 500%Z
  ∧ body (lambda_handler W event) = json_dumps W (VDict answer)
  ∧ ∀ key v, answer !! key = Some v → v ≠ VStr (full_prompt_of style_desc).
Proof.
  intros Hp Hd Hu Hj Hno answer.
  pose proof (generate_and_respond_cases W api_key payload style mime_type) as Hc.
  assert (Hg : ∃ prompt,
             generate_image_from_sketch W api_key payload style mime_type
             = (VNone, prompt)).
  { unfold generate_image_from_sketch, generate_with_prompt.
    rewrite Hd, Hu, Hj.
    destruct (scan_response data) as [[img|]|] eqn:Hs; eauto.
    pose proof (scan_response_usable _ _ Hs) as Hus. congruence. }
  destruct Hg as [prompt Hg]. rewrite Hg in Hc |- *. simpl in Hc.
  rewrite (lambda_handler_next W _ _ _ _ _ Hp), Hc.
  split_and!; try done.
  intros key v H. unfold answer in H.
  apply lookup_insert_Some in H. destruct H as [[_ Hv] | [_ H]];
    [by subst v |].
  apply lookup_insert_Some in H. destruct H as [[_ Hv] | [_ H]].
  - subst v. unfold full_prompt_of. simpl. discriminate.
  - by rewrite lookup_empty in H.
Qed.

Lemma no_image_in_reply_is_failure_witness :
  let parts := [Ref.text_part "no image"; Ref.inline_part "image/png" (VStr "")] in
  let W := Ref.world Ref.env_key_bucket (UrlBody (Ref.dumps (Ref.reply_with parts))) in
  let event := request_content (VStr "data:image/png;base64,AAAA") (VStr "anime") in
  prepare W event = Next ("k", "AAAA", VStr "anime", "image/png")
  ∧ has_usable_image (Ref.reply_with parts) = false
  ∧ statusCode (lambda_handler W event) = 500%Z
  ∧ body (lambda_handler W event)
    = json_dumps W (VDict (<["success" := VBool false]>
                     (<["error" := VStr "Failed to generate image"]> ∅))).
Proof.
  intros parts W event.
  assert (Hp : prepare W event = Next ("k", "AAAA", VStr "anime", "image/png"))
    by (vm_compute; reflexivity).
  assert (Hno : has_usable_image (Ref.reply_with parts) = false)
    by (vm_compute; reflexivity).
  split; [exact Hp |]. split; [exact Hno |].
  destruct (no_image_in_reply_is_failure W event "k" "AAAA" (VStr "anime")
              "image/png"
              "anime style, vibrant colors, Japanese animation aesthetic, cel-shaded, manga inspired"
              (Ref.dumps (Ref.reply_with parts)) (Ref.reply_with parts)
              Hp eq_refl eq_refl
              ltac:(vm_compute; reflexivity) Hno) as (_ & Hs & Hb & _).
  exact (conj Hs Hb).
Defined.

(** ** The success envelope *)

(** The [imageBase64] field of the dict that the success envelope
    serialises. *)
Lemma response_data_image (W : World) (prompt : string) (img s3 st : value) :
  (py_getitem (response_data W prompt img s3 st) "data"
     ≫= λ d, py_getitem d "imageBase64")
  = Some (VStr ("data:image/png;base64," ++ py_str W img)).
Proof. reflexivity. Qed.

Lemma response_data_success (W : World) (prompt : string) (img s3 st : value) :
  py_getitem (response_data W prompt img s3 st) "success" = Some (VBool true).
Proof. reflexivity. Qed.

Lemma response_data_s3 (W : World) (prompt : string) (img s3 st : value) :
  (py_getitem (response_data W prompt img s3 st) "data"
     ≫= λ d, py_getitem d "s3Url")
  = Some s3.
Proof. reflexivity. Qed.

(** A 200 comes from the success envelope only. *)
Lemma success_inversion (W : World) (event : value) :
  statusCode (lambda_handler W event) = 200%Z →
  ∃ api_key payload style mime_type img prompt,
    prepare W event = Next (api_key, payload, style, mime_type)
    ∧ generate_image_from_sketch W api_key payload style mime_type
      = (img, prompt)
    ∧ truthy img = true
    ∧ lambda_handler W event
      = success_response W prompt img (upload_to_s3 W img style) style.
Proof.
  intros H.
  destruct (prepare W event) as [[[[k p] st] m] | r | msg] eqn:Hp.
  - rewrite (lambda_handler_next W _ _ _ _ _ Hp) in H |- *.
    pose proof (generate_and_respond_cases W k p st m) as Hc.
    destruct (generate_image_from_sketch W k p st m) as [img prompt] eqn:Hg.
    rewrite Hc in H |- *.
    destruct (truthy img) eqn:Ht; [| simpl in H; lia].
    exists k, p, st, m, img, prompt. done.
  - rewrite (lambda_handler_return W _ _ Hp) in H.
    destruct (prepare_return W _ _ Hp) as (msg & code & -> & Hc).
    simpl in H. lia.
  - rewrite (lambda_handler_raise W _ _ Hp) in H. simpl in H. lia.
Qed.

(** C6: when the handler answers 200, the [imageBase64] field of the
    dict it serialises is [data:image/png;base64,] followed by the value
    the generation client took from the reply: the non-empty [data] of the
    [inlineData] of the first part of the first candidate that satisfies
    the generator's condition.  When that value is a string, the field is
    the prefix followed by exactly that string, whatever MIME type the
    input image declared. *)
Theorem success_image_is_api_image (W : World) (event : value) :
  statusCode (lambda_handler W event) = 200%Z →
  ∃ api_key payload style mime_type prompt img text data,
    prepare W event = Next (api_key, payload, style, mime_type)
    ∧ generate_image_from_sketch W api_key payload style mime_type
      = (img, prompt)
    ∧ urlopen W (gemini_url api_key)
        (json_dumps W (gemini_payload prompt mime_type payload))
      = UrlBody text
    ∧ json_loads W text = Parsed data
    ∧ (∃ pre p post pd inline,
         first_candidate_parts data = (pre ++ p :: post)%list
         ∧ Forall (λ q, is_image_part q = Some false) pre
         ∧ p = VDict pd
         ∧ pd !! "inlineData" = Some (VDict inline)
         ∧ inline !! "data" = Some img)
    ∧ body (lambda_handler W event)
      = json_dumps W (response_data W prompt img (upload_to_s3 W img style) style)
    ∧ (py_getitem (response_data W prompt img (upload_to_s3 W img style) style)
         "data" ≫= λ d, py_getitem d "imageBase64")
      = Some (VStr ("data:image/png;base64," ++ py_str W img))
    ∧ (∀ b, img = VStr b →
         (py_getitem (response_data W prompt img (upload_to_s3 W img style) style)
            "data" ≫= λ d, py_getitem d "imageBase64")
         = Some (VStr ("data:image/png;base64," ++ b))).
Proof.
  intros H.
  destruct (success_inversion W event H)
    as (k & p & st & m & img & prompt & Hp & Hg & Ht & Hr).
  destruct (generate_image_from_sketch_image W _ _ _ _ _ _ Hg Ht)
    as (desc & text & data & _ & _ & Hu & Hj & Hs).
  destruct (scan_response_found _ _ Hs)
    as (pre & q & post & pd & inline & mime & Hparts & Hpre & -> & Hin & _ & _ & Hd & _).
  exists k, p, st, m, prompt, img, text, data.
  split_and!; try done.
  - exists pre, (VDict pd), post, pd, inline. done.
  - by rewrite Hr.
  - by intros b ->.
Qed.

Lemma success_image_is_api_image_witness :
  let reply := Ref.dumps (Ref.reply_with
                 [Ref.text_part "here"; Ref.inline_part "image/png" (VStr "QUJD")]) in
  let W := Ref.world Ref.env_key_bucket (UrlBody reply) in
  let event := Ref.envelope_string
                 (request_content (VStr "data:image/jpeg;base64,AAAA") (VStr "anime")) in
  statusCode (lambda_handler W event) = 200%Z
  ∧ prepare W event = Next ("k", "AAAA", VStr "anime", "image/jpeg")
  ∧ ∃ prompt img s3 style,
      body (lambda_handler W event)
      = json_dumps W (response_data W prompt img s3 style)
      ∧ (py_getitem (response_data W prompt img s3 style) "data"
           ≫= λ d, py_getitem d "imageBase64")
        = Some (VStr ("data:image/png;base64," ++ py_str W img)).
Proof.
  intros reply W event.
  assert (H : statusCode (lambda_handler W event) = 200%Z)
    by (vm_compute; reflexivity).
  split; [exact H |]. split; [vm_compute; reflexivity |].
  destruct (success_image_is_api_image W event H)
    as (k & p & st & m & prompt & img & text & data & _ & _ & _ & _ & _ & Hb & Hf & _).
  exists prompt, img, (upload_to_s3 W img st), st. exact (conj Hb Hf).
Defined.

(** A 200 with a JPEG input, run: the field is the PNG prefix and the
    string of the reply. *)
Example success_image_jpeg_input :
  let reply := Ref.dumps (Ref.reply_with
                 [Ref.text_part "here"; Ref.inline_part "image/png" (VStr "QUJD")]) in
  let W := Ref.world Ref.env_key (UrlBody reply) in
  let event := request_content (VStr "data:image/jpeg;base64,AAAA") (VStr "anime") in
  lambda_handler W event
  = success_response W
      "Transform this sketch into a beautiful image, anime style, vibrant colors, Japanese animation aesthetic, cel-shaded, manga inspired, masterpiece quality, professional artwork"
      (VStr "QUJD") VNone (VStr "anime").
Proof. vm_compute. reflexivity. Qed.

(** ** Publication *)






(** * Further properties of the handler *)

(** ** The response envelope *)

(** X1: every response of [lambda_handler], on every path (an early 400,
    the configuration error, the umbrella [except], the generation
    failure, the success), carries the headers of [cors_headers]. *)
Theorem response_headers_cors (W : World) (event : value) :
  headers (lambda_handler W event) = cors_headers.
Proof.
  destruct (prepare W event) as [[[[k p] st] m] | r | msg] eqn:Hp.
  - rewrite (lambda_handler_next W _ _ _ _ _ Hp).
    pose proof (generate_and_respond_cases W k p st m) as Hc.
    destruct (generate_image_from_sketch W k p st m) as [img prompt].
    rewrite Hc. by destruct (truthy img).
  - rewrite (lambda_handler_return W _ _ Hp).
    by destruct (prepare_return W _ _ Hp) as (msg & code & -> & _).
  - by rewrite (lambda_handler_raise W _ _ Hp).
Qed.

(** X2: every response is the serialisation of a dict with a [success]
    field, and the status tells which: 200 with [success] true (the dict
    of the success envelope), or 400 or 500 with [success] false and an
    [error] message.  No other status is ever returned. *)
Theorem response_contract (W : World) (event : value) :
  let r := lambda_handler W event in
  (statusCode r = 200%Z
   ∧ ∃ prompt img s3_url style,
       body r = json_dumps W (response_data W prompt img s3_url style)
       ∧ py_getitem (response_data W prompt img s3_url style) "success"
         = Some (VBool true))
  ∨ ((statusCode r = 400%Z ∨ statusCode r = 500%Z)
     ∧ ∃ msg,
         body r = json_dumps W (error_data msg)
         ∧ py_getitem (error_data msg) "success" = Some (VBool false)
         ∧ py_getitem (error_data msg) "error" = Some (VStr msg)).
Proof.
  cbv zeta.
  destruct (prepare W event) as [[[[k p] st] m] | r | msg] eqn:Hp.
  - rewrite (lambda_handler_next W _ _ _ _ _ Hp).
    pose proof (generate_and_respond_cases W k p st m) as Hc.
    destruct (generate_image_from_sketch W k p st m) as [img prompt].
    rewrite Hc. destruct (truthy img).
    + left. split; [done |]. by exists prompt, img, (upload_to_s3 W img st), st.
    + right. split; [by right |]. by exists "Failed to generate image".
  - rewrite (lambda_handler_return W _ _ Hp).
    destruct (prepare_return W _ _ Hp) as (msg & code & -> & Hc).
    right. split; [done |]. by exists msg.
  - rewrite (lambda_handler_raise W _ _ Hp).
    right. split; [by right |]. by exists msg.
Qed.

(** ** The normaliser *)

(** X3: when the envelope has a [body] field, the response depends on
    that field only: the other fields of the envelope, an [imageData] or
    a [style] of its own included, are ignored. *)
Theorem body_field_decides (W : World) (ev1 ev2 : gmap string value)
    (b : value) :
  ev1 !! "body" = Some b →
  ev2 !! "body" = Some b →
  normalize W (VDict ev1) = normalize W (VDict ev2)
  ∧ lambda_handler W (VDict ev1) = lambda_handler W (VDict ev2).
Proof.
  intros H1 H2.
  assert (Hr : resolve_body W (VDict ev1) = resolve_body W (VDict ev2)).
  { unfold resolve_body. rewrite H1, H2. by destruct b. }
  assert (Hn : normalize W (VDict ev1) = normalize W (VDict ev2))
    by (unfold normalize; by rewrite Hr).
  split; [done | by apply lambda_handler_normalize_eq].
Qed.

Lemma body_field_decides_witness :
  let W := Ref.world Ref.env_key UrlRaised in
  let c := request_content (VStr "short") (VStr "anime") in
  let ev1 : gmap string value := {["body" := c]} in
  let ev2 : gmap string value :=
    <["imageData" := VStr "AAAAAAAAAAAAAAAA"]> (<["body" := c]> ∅) in
  ev1 !! "body" = Some c
  ∧ ev2 !! "body" = Some c
  ∧ lambda_handler W (VDict ev1) = lambda_handler W (VDict ev2)
  ∧ lambda_handler W (VDict ev2) = error_response W "imageData is too short" 400.
Proof.
  intros W c ev1 ev2.
  assert (H1 : ev1 !! "body" = Some c) by apply lookup_singleton_eq.
  assert (H2 : ev2 !! "body" = Some c) by reflexivity.
  split_and!; [exact H1 | exact H2 | |].
  - exact (proj2 (body_field_decides W ev1 ev2 c H1 H2)).
  - vm_compute. reflexivity.
Defined.

(** X4: a request object without a [style] field is answered as the same
    object with [style] set to ["realistic"]. *)
Theorem style_defaults_to_realistic (W : World) (d : gmap string value) :
  d !! "body" = None →
  d !! "style" = None →
  normalize W (VDict d) = Next (get_image_data d, VStr "realistic")
  ∧ lambda_handler W (VDict d)
    = lambda_handler W (VDict (<["style" := VStr "realistic"]> d)).
Proof.
  intros Hb Hs.
  assert (H1 : normalize W (VDict d) = Next (get_image_data d, VStr "realistic")).
  { unfold normalize, resolve_body. rewrite Hb.
    destruct (d !! "imageData") eqn:Hi; simpl;
      unfold get_style, get_image_data; by rewrite Hs, Hi. }
  split; [done |]. apply lambda_handler_normalize_eq. rewrite H1.
  unfold normalize, resolve_body.
  rewrite lookup_insert_ne, Hb by done.
  rewrite (lookup_insert_ne d "style" "imageData") by done.
  destruct (d !! "imageData") eqn:Hi; simpl;
    unfold get_style, get_image_data;
    rewrite lookup_insert_eq, (lookup_insert_ne d "style" "imageData"), Hi
      by done;
    done.
Qed.

Lemma style_defaults_to_realistic_witness :
  let reply := Ref.dumps (Ref.reply_with [Ref.inline_part "image/png" (VStr "QUJD")]) in
  let W := Ref.world Ref.env_key (UrlBody reply) in
  let d : gmap string value := {["imageData" := VStr "AAAAAAAAAAAA"]} in
  d !! "body" = None
  ∧ d !! "style" = None
  ∧ lambda_handler W (VDict d)
    = lambda_handler W (VDict (<["style" := VStr "realistic"]> d))
  ∧ lambda_handler W (VDict d)
    = success_response W
        "Transform this sketch into a beautiful image, photorealistic, highly detailed, professional photography, natural lighting, 8k quality, masterpiece quality, professional artwork"
        (VStr "QUJD") VNone (VStr "realistic").
Proof.
  intros reply W d.
  assert (H1 : d !! "body" = None) by reflexivity.
  assert (H2 : d !! "style" = None) by reflexivity.
  split_and!; [exact H1 | exact H2 | |].
  - exact (proj2 (style_defaults_to_realistic W d H1 H2)).
  - vm_compute. reflexivity.
Defined.

(** X5: the normaliser's answers, each given before the key is read: an
    event that is not an object gets 400 [Invalid event format]; a [body]
    that is neither a string nor an object gets 400 [Invalid body format];
    a [body] string that does not parse gets 400 [Invalid JSON: ] followed
    by the decoder's text; one that parses to null gets 400
    [No request body]; one that parses to anything else that is not an
    object gets 400 [Body must be an object]. *)
Theorem normalizer_rejections (W : World) :
  (∀ event, (∀ d, event ≠ VDict d) →
     lambda_handler W event = error_response W "Invalid event format" 400)
  ∧ (∀ ev b, ev !! "body" = Some b →
       (∀ s, b ≠ VStr s) → (∀ d, b ≠ VDict d) →
       lambda_handler W (VDict ev)
       = error_response W "Invalid body format" 400)
  ∧ (∀ ev s e, ev !! "body" = Some (VStr s) →
       json_loads W s = JSONDecodeError e →
       lambda_handler W (VDict ev)
       = error_response W ("Invalid JSON: " ++ e) 400)
  ∧ (∀ ev s, ev !! "body" = Some (VStr s) →
       json_loads W s = Parsed VNone →
       lambda_handler W (VDict ev) = error_response W "No request body" 400)
  ∧ (∀ ev s v, ev !! "body" = Some (VStr s) →
       json_loads W s = Parsed v →
       v ≠ VNone → (∀ d, v ≠ VDict d) →
       lambda_handler W (VDict ev)
       = error_response W "Body must be an object" 400).
Proof.
  split_and!.
  - intros event Hd. apply lambda_handler_return, prepare_normalize_return.
    unfold normalize, resolve_body. destruct event; try done.
    by destruct (Hd d).
  - intros ev b Hb Hs Hd.
    apply lambda_handler_return, prepare_normalize_return.
    unfold normalize, resolve_body. rewrite Hb.
    destruct b; try done; [by destruct (Hs s) | by destruct (Hd d)].
  - intros ev s e Hb Hj.
    apply lambda_handler_return, prepare_normalize_return.
    unfold normalize, resolve_body. by rewrite Hb, Hj.
  - intros ev s Hb Hj.
    apply lambda_handler_return, prepare_normalize_return.
    unfold normalize, resolve_body. by rewrite Hb, Hj.
  - intros ev s v Hb Hj Hn Hd.
    apply lambda_handler_return, prepare_normalize_return.
    unfold normalize, resolve_body. rewrite Hb, Hj.
    destruct v; try done. by destruct (Hd d).
Qed.

Lemma normalizer_rejections_witness :
  let W := Ref.world ∅ UrlRaised in
  lambda_handler W (VStr "imageData")
  = error_response W "Invalid event format" 400
  ∧ lambda_handler W (VDict {["body" := VInt 3]})
    = error_response W "Invalid body format" 400
  ∧ lambda_handler W (VDict {["body" := VStr "[1, 2]"]})
    = error_response W "Body must be an object" 400
  ∧ lambda_handler W (VDict {["body" := VStr "null"]})
    = error_response W "No request body" 400.
Proof.
  intros W.
  destruct (normalizer_rejections W) as (H1 & H2 & _ & H4 & H5).
  split_and!.
  - by apply H1.
  - by apply (H2 _ (VInt 3)); [apply lookup_singleton_eq | |].
  - apply (H5 _ "[1, 2]" (VList [VInt 1; VInt 2]));
      [apply lookup_singleton_eq | vm_compute; reflexivity | done | done].
  - apply (H4 _ "null"); [apply lookup_singleton_eq | vm_compute; reflexivity].
Defined.

(** ** Validation *)

(** X6: an [imageData] that is truthy and has no length (a non-zero
    number, [true]) makes the log line of line 77 raise before any test,
    the key test included: the handler answers 500 with the text of the
    [TypeError], whether or not the key is configured. *)
Theorem unsized_image_data_raises (W : World) (event image_data style : value) :
  normalize W event = Next (image_data, style) →
  truthy image_data = true →
  py_len image_data = None →
  ((∃ n, image_data = VInt n) ∨ (∃ f, image_data = VFloat f)
   ∨ image_data = VBool true)
  ∧ lambda_handler W event
    = error_response W
        ("object of type '" ++ type_name image_data ++ "' has no len()") 500.
Proof.
  intros Hn Ht Hl. split.
  - destruct image_data as [| [|] | | | | |]; simpl in *; try done; eauto.
  - apply lambda_handler_raise. rewrite (prepare_normalized W _ _ _ Hn).
    unfold after_normalize, log_length. by rewrite Ht, Hl.
Qed.

Lemma unsized_image_data_raises_witness :
  let W := Ref.world ∅ UrlRaised in
  let event := Ref.envelope_object (request_content (VBool true) VNone) in
  normalize W event = Next (VBool true, VNone)
  ∧ env_set W "GEMINI_API_KEY" = false
  ∧ lambda_handler W event
    = error_response W "object of type 'bool' has no len()" 500.
Proof.
  intros W event.
  assert (Hn : normalize W event = Next (VBool true, VNone))
    by (vm_compute; reflexivity).
  split_and!; [exact Hn | reflexivity |].
  exact (proj2 (unsized_image_data_raises W event (VBool true) VNone Hn
                  eq_refl eq_refl)).
Defined.

(** X7: with the key configured and a style that the log line of line 78
    can print, an [imageData] that is a non-empty list or object is
    answered with 400 [imageData must be a string]. *)
Theorem sized_non_string_rejected (W : World) (event image_data style : value) :
  env_set W "GEMINI_API_KEY" = true →
  normalize W event = Next (image_data, style) →
  printable W (py_str W style) = true →
  truthy image_data = true →
  is_str image_data = false →
  is_Some (py_len image_data) →
  lambda_handler W event = error_response W "imageData must be a string" 400.
Proof.
  intros Hk Hn Hst Ht Hs Hl. apply lambda_handler_return.
  rewrite (prepare_normalized W _ _ _ Hn).
  unfold after_normalize, validate_image_data.
  destruct (get_api_key_set W Hk) as (k & _ & ->).
  rewrite (log_length_ok _ (λ _, Hl)), (log_style_ok W _ Hst), Ht.
  by destruct image_data.
Qed.

Lemma sized_non_string_rejected_witness :
  let W := Ref.world Ref.env_key UrlRaised in
  let image := VDict {["png" := VStr "AAAAAAAAAAAA"]} in
  let event := request_content image (VStr "anime") in
  env_set W "GEMINI_API_KEY" = true
  ∧ normalize W event = Next (image, VStr "anime")
  ∧ lambda_handler W event = error_response W "imageData must be a string" 400.
Proof.
  intros W image event.
  assert (Hn : normalize W event = Next (image, VStr "anime")) by reflexivity.
  split_and!; [reflexivity | exact Hn |].
  apply (sized_non_string_rejected W event image (VStr "anime"));
    [reflexivity | exact Hn | vm_compute; reflexivity
    | vm_compute; reflexivity | reflexivity |].
  simpl. eauto.
Defined.



(** ** The decoder *)


(** X8: the decoding of lines 102-109 never raises [IndexError]: behind
    the prefix [data:image] the index [1] of [split(":")] and the index
    [1] of the two parts always exist, so every string is either accepted
    or answered with [Invalid data URL format].  (The log line 110 that
    follows an accepted prefix can still raise [UnicodeEncodeError].) *)
Theorem decode_image_data_never_raises (W : World) (s msg : string) :
  decode_image_data W s ≠ Raise msg
  ∧ ((∃ payload mime_type, decode_image_data W s = Next (payload, mime_type))
     ∨ decode_image_data W s
       = Return (error_response W "Invalid data URL format" 400)).
Proof.
  destruct (startswith "data:image" s) eqn:Hp.
  - destruct (prefix_app _ _ Hp) as [t ->].
    rewrite (decode_prefixed W t).
    destruct (count_char "," ("data:image" ++ t) =? 1)%nat eqn:E;
      [| split; [done | by right]].
    apply Nat.eqb_eq in E.
    destruct (split_on_one_sep _ _ E) as (r & -> & _).
    split; [done | left; eauto].
  - rewrite (decode_unprefixed W s Hp). split; [done | left; eauto].
Qed.




(** ** What reaches the generation call, and what reaches the umbrella *)

Section Inversions.
Context (W : World).

Lemma get_api_key_next (k : string) :
  get_api_key W = Next k → environ W !! "GEMINI_API_KEY" = Some k ∧ k ≠ "".
Proof.
  unfold get_api_key.
  destruct (environ W !! "GEMINI_API_KEY") as [k'|]; [| done].
  destruct (String.eqb k' "") eqn:E; [done |].
  intros [= ->]. split; [done | by apply String.eqb_neq].
Qed.

Lemma get_api_key_no_raise (msg : string) : get_api_key W ≠ Raise msg.
Proof.
  unfold get_api_key.
  destruct (environ W !! "GEMINI_API_KEY") as [k'|]; [| done].
  by destruct (String.eqb k' "").
Qed.

Lemma validate_image_data_next (image_data : value) (s : string) :
  validate_image_data W image_data = Next s →
  image_data = VStr s ∧ (10 ≤ String.length s)%nat.
Proof.
  unfold validate_image_data.
  destruct (truthy image_data); [| done].
  destruct image_data as [| | | | s' | |]; try done. simpl.
  destruct (String.length s' <? 10)%nat eqn:E; [done |].
  intros [= ->]. split; [done | by apply Nat.ltb_ge].
Qed.

Lemma validate_image_data_no_raise (image_data : value) (msg : string) :
  validate_image_data W image_data ≠ Raise msg.
Proof.
  unfold validate_image_data.
  destruct (truthy image_data); [| done].
  destruct image_data as [| | | | s' | |]; try done. simpl.
  by destruct (String.length s' <? 10)%nat.
Qed.

Lemma log_length_raise (image_data : value) (msg : string) :
  log_length image_data = Raise msg →
  truthy image_data = true
  ∧ py_len image_data = None
  ∧ msg = "object of type '" ++ type_name image_data ++ "' has no len()".
Proof.
  unfold log_length. destruct (truthy image_data); [| done].
  destruct (py_len image_data); [done |]. by intros [= <-].
Qed.

Lemma py_print_next (text : string) (u : unit) :
  py_print W text = Next u → printable W text = true.
Proof. unfold py_print. by destruct (printable W text). Qed.

Lemma py_print_raise (text msg : string) :
  py_print W text = Raise msg →
  printable W text = false ∧ msg = encode_error W text.
Proof.
  unfold py_print. destruct (printable W text); [done |]. by intros [= <-].
Qed.

(** The log line of line 116 prints characters that lines 78 and 110
    have printed, or the default MIME type: it does not raise. *)
Lemma log_processing_after (s payload mime_type : string) (style : value)
    (u1 u2 : unit) :
  log_style W style = Next u1 →
  decode_image_data W s = Next (payload, mime_type) →
  log_mime_type W s mime_type = Next u2 →
  log_processing W style mime_type = Next tt.
Proof.
  intros Hs Hd Hm. apply log_processing_ok.
  - apply py_print_next in Hs.
    rewrite (printable_app W "style: ") in Hs.
    by apply andb_true_iff in Hs as [_ Hs].
  - unfold log_mime_type in Hm.
    destruct (startswith "data:image" s) eqn:Hp.
    + apply py_print_next in Hm.
      rewrite (printable_app W "Extracted mime type: ") in Hm.
      by apply andb_true_iff in Hm as [_ Hm].
    + rewrite (decode_unprefixed W s Hp) in Hd. by simplify_eq.
Qed.

End Inversions.

(** X10: the generation call is made only with a key that is set and not
    empty, for an [imageData] that is a string of at least ten characters,
    and with the payload and MIME type that the decoder read from it; the
    style is passed on as the request has it. *)
Theorem generation_preconditions (W : World) (event : value)
    (api_key payload : string) (style : value) (mime_type : string) :
  prepare W event = Next (api_key, payload, style, mime_type) →
  environ W !! "GEMINI_API_KEY" = Some api_key
  ∧ api_key ≠ ""
  ∧ ∃ s, normalize W event = Next (VStr s, style)
         ∧ (10 ≤ String.length s)%nat
         ∧ decode_image_data W s = Next (payload, mime_type).
Proof.
  intros Hp. unfold prepare in Hp.
  destruct (normalize W event) as [[i st] | |] eqn:Hn;
    unfold mbind, flow_bind in Hp; simpl in Hp; [| done | done].
  unfold after_normalize in Hp. unfold mbind, flow_bind in Hp.
  destruct (log_length i); [| done | done].
  destruct (log_style W st); [| done | done].
  destruct (get_api_key W) as [k | |] eqn:Hk; [| done | done].
  destruct (validate_image_data W i) as [s | |] eqn:Hv; [| done | done].
  destruct (decode_image_data W s) as [[p m] | |] eqn:Hd; [| done | done].
  destruct (log_mime_type W s m); [| done | done].
  destruct (log_processing W st m); [| done | done].
  simplify_eq.
  destruct (get_api_key_next W _ Hk) as [Hkey Hne].
  destruct (validate_image_data_next W _ _ Hv) as [-> Hlen].
  split_and!; [done | done |]. exists s. by split_and!.
Qed.

Lemma generation_preconditions_witness :
  let W := Ref.world Ref.env_key UrlHTTPError in
  let event := request_content (VStr "data:image/webp;base64,UklGRg") (VInt 3) in
  prepare W event = Next ("k", "UklGRg", VInt 3, "image/webp")
  ∧ environ W !! "GEMINI_API_KEY" = Some "k"
  ∧ decode_image_data W "data:image/webp;base64,UklGRg"
    = Next ("UklGRg", "image/webp").
Proof.
  intros W event.
  assert (Hp : prepare W event = Next ("k", "UklGRg", VInt 3, "image/webp"))
    by (vm_compute; reflexivity).
  split; [exact Hp |].
  destruct (generation_preconditions W event _ _ _ _ Hp) as (Hk & _ & _).
  split; [exact Hk | reflexivity].
Defined.

(** X11: the umbrella [except] of the handler is reached from three
    kinds of places only: [json.loads] of a [body] string raising
    something other than a [JSONDecodeError]; the log line of line 77
    measuring a truthy [imageData] that has no length; and a log line
    printing text that [sys.stdout] cannot encode, the style at line 78 or
    the MIME type at line 110 (line 116 prints the same characters again
    and is never the first to raise).  The answer is then 500 with the
    exception's text. *)
Theorem umbrella_sources (W : World) (event : value) (msg : string) :
  handler_body W event = Raise msg →
  lambda_handler W event = error_response W msg 500
  ∧ ((∃ ev s, event = VDict ev
              ∧ ev !! "body" = Some (VStr s)
              ∧ json_loads W s = LoadsRaised msg)
     ∨ (∃ image_data style,
          normalize W event = Next (image_data, style)
          ∧ truthy image_data = true
          ∧ py_len image_data = None
          ∧ msg = "object of type '" ++ type_name image_data
                  ++ "' has no len()")
     ∨ (∃ image_data style text,
          normalize W event = Next (image_data, style)
          ∧ printable W text = false
          ∧ msg = encode_error W text
          ∧ (text = "style: " ++ py_str W style
             ∨ ∃ s payload mime_type,
                 image_data = VStr s
                 ∧ startswith "data:image" s = true
                 ∧ decode_image_data W s = Next (payload, mime_type)
                 ∧ text = "Extracted mime type: " ++ mime_type))).
Proof.
  intros H. split; [unfold lambda_handler; by rewrite H |].
  unfold handler_body in H.
  destruct (prepare W event) as [[[[k p] st] m] | r | msg'] eqn:Hp;
    unfold mbind, flow_bind in H; simpl in H; simplify_eq.
  unfold prepare in Hp.
  destruct (normalize W event) as [[i st] | r | msg'] eqn:Hn;
    unfold mbind, flow_bind in Hp; simpl in Hp; simplify_eq.
  - right. unfold after_normalize in Hp. unfold mbind, flow_bind in Hp.
    destruct (log_length i) as [u0 | |] eqn:Hl; [| done |].
    2: { simplify_eq. left. exists i, st.
         destruct (log_length_raise _ _ Hl) as (? & ? & ?). done. }
    right. exists i, st.
    destruct (log_style W st) as [u1 | |] eqn:Hs; [| done |].
    2: { simplify_eq. destruct (py_print_raise W _ _ Hs) as [Hu ->].
         exists ("style: " ++ py_str W st). split_and!; try done. by left. }
    destruct (get_api_key W) as [k | |] eqn:Hk; [| done |].
    2: { by destruct (get_api_key_no_raise W msg0). }
    destruct (validate_image_data W i) as [s | |] eqn:Hv; [| done |].
    2: { by destruct (validate_image_data_no_raise W i msg0). }
    destruct (validate_image_data_next W _ _ Hv) as [-> _].
    destruct (decode_image_data W s) as [[p m] | |] eqn:Hd; [| done |].
    2: { by destruct (proj1 (decode_image_data_never_raises W s msg0)). }
    destruct (log_mime_type W s m) as [u2 | |] eqn:Hm; [| done |].
    2: { simplify_eq. unfold log_mime_type in Hm.
         destruct (startswith "data:image" s) eqn:Hpre; [| done].
         destruct (py_print_raise W _ _ Hm) as [Hu ->].
         exists ("Extracted mime type: " ++ m). split_and!; try done.
         right. by exists s, p, m. }
    rewrite (log_processing_after W _ _ _ _ _ _ Hs Hd Hm) in Hp. done.
  - left. unfold normalize, resolve_body, check_body in Hn.
    unfold mbind, flow_bind in Hn.
    destruct event as [| | | | | | ev]; try done.
    destruct (ev !! "body") as [b|] eqn:Hb.
    + destruct b as [| | | | s | | d]; try done.
      * destruct (json_loads W s) as [v | e | e] eqn:Hj.
        -- by destruct v.
        -- done.
        -- simplify_eq. eauto.
    + by destruct (ev !! "imageData").
Qed.

Lemma umbrella_sources_witness :
  let W := Ref.world Ref.env_key UrlHTTPError in
  let event := request_content (VInt 7) (VStr "anime") in
  handler_body W event = Raise "object of type 'int' has no len()"
  ∧ lambda_handler W event
    = error_response W "object of type 'int' has no len()" 500.
Proof.
  intros W event.
  assert (H : handler_body W event = Raise "object of type 'int' has no len()")
    by reflexivity.
  split; [exact H |].
  exact (proj1 (umbrella_sources W event _ H)).
Defined.

(** ** The generation client *)

Section Client.
Context (W : World).

(** Once a request is prepared, a falsy result of the client is answered
    with the generation failure. *)
Lemma falsy_generation_fails (event : value) (api_key payload : string)
    (style : value) (mime_type : string) :
  prepare W event = Next (api_key, payload, style, mime_type) →
  truthy (generate_image_from_sketch W api_key payload style mime_type).1
  = false →
  lambda_handler W event = error_response W "Failed to generate image" 500.
Proof.
  intros Hp Hf. rewrite (lambda_handler_next W _ _ _ _ _ Hp).
  pose proof (generate_and_respond_cases W api_key payload style mime_type) as Hc.
  destruct (generate_image_from_sketch W api_key payload style mime_type)
    as [img prompt].
  simpl in Hf. by rewrite Hc, Hf.
Qed.

(** The client's result for a reply that was read and parsed. *)
Lemma generate_with_prompt_reply (api_key sketch_data mime_type prompt : string)
    (text : string) (data : value) :
  urlopen W (gemini_url api_key)
    (json_dumps W (gemini_payload prompt mime_type sketch_data))
  = UrlBody text →
  json_loads W text = Parsed data →
  generate_with_prompt W api_key sketch_data mime_type prompt
  = match scan_response data with
    | Some (Some image_base64) => (image_base64, prompt)
    | Some None => (VNone, prompt)
    | None => (VNone, "")
    end.
Proof. intros Hu Hj. unfold generate_with_prompt. by rewrite Hu, Hj. Qed.

(** The scan goes through parts that do not satisfy the condition and
    stops at the first one that satisfies it or raises. *)
Lemma find_image_part_app (pre : list value) (p : value) (post : list value) :
  Forall (λ q, is_image_part q = Some false) pre →
  find_image_part (pre ++ p :: post)%list
  = (ok ← is_image_part p;
     if (ok : bool) then Some (Some p) else find_image_part post).
Proof.
  induction 1 as [|q pre Hq _ IH]; simpl; [done |]. by rewrite Hq.
Qed.

(** A reply whose first candidate has parts is scanned part by part. *)
Lemma scan_response_parts (data : value) :
  first_candidate_parts data ≠ [] →
  scan_response data
  = (found ← find_image_part (first_candidate_parts data);
     match found with
     | Some image_part => image_of_part image_part
     | None => Some None
     end).
Proof.
  unfold first_candidate_parts. intros H.
  destruct data as [| | | | | | d]; try done.
  destruct (d !! "candidates") as [[| | | | | [|[| | | | | | cd] rest] |]|] eqn:Hc;
    try done.
  destruct (cd !! "content") as [[| | | | | | c]|] eqn:Hcont; try done.
  destruct (c !! "parts") as [[| | | | | parts |]|] eqn:Hparts; try done.
  unfold scan_response, py_contains, py_getitem.
  rewrite Hc, bool_decide_eq_true_2 by eauto.
  simpl. rewrite Hcont. simpl. rewrite Hparts. done.
Qed.

Lemma truthy_dict_lookup (d : gmap string value) (k : string) (v : value) :
  d !! k = Some v → truthy (VDict d) = true.
Proof.
  intros H. simpl. destruct (map_to_list d) eqn:E; [| done].
  apply map_to_list_empty_iff in E. subst. by rewrite lookup_empty in H.
Qed.

Lemma is_image_part_intro (pd inline : gmap string value) (mime : string) :
  pd !! "inlineData" = Some (VDict inline) →
  inline !! "mimeType" = Some (VStr mime) →
  startswith "image/" mime = true →
  is_image_part (VDict pd) = Some true.
Proof.
  intros Hin Hm Hs. unfold is_image_part, py_contains, py_getitem.
  rewrite Hin, bool_decide_eq_true_2 by eauto.
  simpl. rewrite Hm. simpl. by rewrite Hs.
Qed.

End Client.

(** X12: when the call made for a prepared request (the prompt built from
    its style) raises an [HTTPError] or any other exception, or its reply
    is not JSON, the handler answers 500 [Failed to generate image]; none
    of them reaches the caller as an exception or with its own text. *)
Theorem generation_soft_failure (W : World) (event : value)
    (api_key payload : string) (style : value) (mime_type style_desc : string) :
  prepare W event = Next (api_key, payload, style, mime_type) →
  style_desc_of style = Some style_desc →
  (let call :=
     urlopen W (gemini_url api_key)
       (json_dumps W
          (gemini_payload (full_prompt_of style_desc) mime_type payload)) in
   call = UrlHTTPError ∨ call = UrlRaised
   ∨ ∃ text, call = UrlBody text ∧ ∀ data, json_loads W text ≠ Parsed data) →
  lambda_handler W event = error_response W "Failed to generate image" 500.
Proof.
  intros Hp Hd Hcall. apply (falsy_generation_fails W _ _ _ _ _ Hp).
  unfold generate_image_from_sketch, generate_with_prompt. rewrite Hd.
  cbv zeta in Hcall.
  destruct Hcall as [-> | [-> | (text & -> & Hj)]]; [done | done |].
  destruct (json_loads W text) as [data | |] eqn:E; [| done | done].
  by destruct (Hj data).
Qed.

Lemma generation_soft_failure_witness :
  let W := Ref.world Ref.env_key_bucket (UrlBody "<html>Bad Gateway</html>") in
  let event := request_content (VStr "AAAAAAAAAAAA") (VStr "anime") in
  prepare W event = Next ("k", "AAAAAAAAAAAA", VStr "anime", "image/png")
  ∧ lambda_handler W event = error_response W "Failed to generate image" 500.
Proof.
  intros W event.
  assert (Hp : prepare W event
               = Next ("k", "AAAAAAAAAAAA", VStr "anime", "image/png"))
    by (vm_compute; reflexivity).
  split; [exact Hp |].
  apply (generation_soft_failure W event _ _ _ _
           "anime style, vibrant colors, Japanese animation aesthetic, cel-shaded, manga inspired"
           Hp eq_refl).
  right; right. exists "<html>Bad Gateway</html>".
  split; [reflexivity |]. intros data Hj. vm_compute in Hj. discriminate Hj.
Defined.

(** X13: the image of the reply is the non-empty [data] of the first part
    of the first candidate that satisfies the generator's condition; the
    parts after it are not looked at, whatever they are.  For a prepared
    request with a hashable style the handler then answers with status
    200 and the serialisation of the success object holding the prompt
    that was sent, that image behind the PNG prefix, the publisher's
    result and the style. *)
Theorem first_image_part_is_returned (W : World) (event : value)
    (api_key payload : string) (style : value) (mime_type : string)
    (style_desc text : string) (data : value)
    (pre post : list value) (pd inline : gmap string value)
    (mime : string) (img : value) :
  prepare W event = Next (api_key, payload, style, mime_type) →
  style_desc_of style = Some style_desc →
  urlopen W (gemini_url api_key)
    (json_dumps W (gemini_payload (full_prompt_of style_desc) mime_type payload))
  = UrlBody text →
  json_loads W text = Parsed data →
  first_candidate_parts data = (pre ++ VDict pd :: post)%list →
  Forall (λ q, is_image_part q = Some false) pre →
  pd !! "inlineData" = Some (VDict inline) →
  inline !! "mimeType" = Some (VStr mime) →
  startswith "image/" mime = true →
  inline !! "data" = Some img →
  truthy img = true →
  is_Some (py_len img) →
  scan_response data = Some (Some img)
  ∧ statusCode (lambda_handler W event) = 200%Z
  ∧ body (lambda_handler W event)
    = json_dumps W
        (VDict (<["success" := VBool true]>
                (<["data" :=
                    VDict (<["prompt" := VStr (full_prompt_of style_desc)]>
                           (<["imageBase64" :=
                               VStr ("data:image/png;base64," ++ py_str W img)]>
                           (<["s3Url" := upload_to_s3 W img style]>
                           (<["style" := style]> ∅))))]> ∅))).
Proof.
  intros Hp Hd Hu Hj Hparts Hpre Hin Hm Hs Hdata Ht [n Hl].
  assert (Hscan : scan_response data = Some (Some img)).
  { rewrite scan_response_parts by (rewrite Hparts; by destruct pre).
    rewrite Hparts, (find_image_part_app _ _ _ Hpre).
    rewrite (is_image_part_intro _ _ _ Hin Hm Hs). simpl.
    unfold image_of_part. rewrite (truthy_dict_lookup _ _ _ Hin).
    unfold py_getitem. rewrite Hin. simpl. rewrite Hdata. simpl.
    by rewrite Ht, Hl. }
  split; [done |].
  rewrite (lambda_handler_next W _ _ _ _ _ Hp).
  pose proof (generate_and_respond_cases W api_key payload style mime_type) as Hc.
  unfold generate_image_from_sketch in Hc. rewrite Hd in Hc.
  rewrite (generate_with_prompt_reply W _ _ _ _ _ _ Hu Hj), Hscan in Hc.
  by rewrite Hc, Ht.
Qed.

Lemma first_image_part_is_returned_witness :
  let parts := [Ref.text_part "here it is";
                Ref.inline_part "image/png" (VStr "QUJD");
                VInt 0;
                Ref.inline_part "image/png" (VStr "ignored")] in
  let W := Ref.world Ref.env_key (UrlBody (Ref.dumps (Ref.reply_with parts))) in
  let event := request_content (VStr "AAAAAAAAAAAA") (VStr "fantasy") in
  prepare W event = Next ("k", "AAAAAAAAAAAA", VStr "fantasy", "image/png")
  ∧ scan_response (Ref.reply_with parts) = Some (Some (VStr "QUJD"))
  ∧ statusCode (lambda_handler W event) = 200%Z
  ∧ body (lambda_handler W event)
    = json_dumps W
        (VDict (<["success" := VBool true]>
                (<["data" :=
                    VDict (<["prompt" :=
                               VStr (full_prompt_of "fantasy art style, magical atmosphere, ethereal, epic illustration, mystical and enchanting")]>
                           (<["imageBase64" := VStr "data:image/png;base64,QUJD"]>
                           (<["s3Url" := VNone]>
                           (<["style" := VStr "fantasy"]> ∅))))]> ∅))).
Proof.
  intros parts W event.
  assert (Hp : prepare W event
               = Next ("k", "AAAAAAAAAAAA", VStr "fantasy", "image/png"))
    by (vm_compute; reflexivity).
  split; [exact Hp |].
  refine (first_image_part_is_returned W event _ _ _ _
            "fantasy art style, magical atmosphere, ethereal, epic illustration, mystical and enchanting"
            (Ref.dumps (Ref.reply_with parts)) (Ref.reply_with parts)
            [Ref.text_part "here it is"]
            [VInt 0; Ref.inline_part "image/png" (VStr "ignored")]
            {["inlineData" := VDict (<["mimeType" := VStr "image/png"]>
                                     (<["data" := VStr "QUJD"]> ∅))]}
            (<["mimeType" := VStr "image/png"]> (<["data" := VStr "QUJD"]> ∅))
            "image/png" (VStr "QUJD") Hp _ _ _ _ _ _ _ _ _ _ _).
  - vm_compute. reflexivity.
  - reflexivity.
  - vm_compute. reflexivity.
  - vm_compute. reflexivity.
  - repeat constructor.
  - apply lookup_singleton_eq.
  - reflexivity.
  - reflexivity.
  - reflexivity.
  - reflexivity.
  - simpl. eauto.
Defined.

(** A parsed reply to the request that was sent, from which the scan
    takes no image, is answered with the generation failure. *)
Lemma reply_without_image_fails (W : World) (event : value)
    (api_key payload : string) (style : value) (mime_type : string)
    (style_desc text : string) (data : value) :
  prepare W event = Next (api_key, payload, style, mime_type) →
  style_desc_of style = Some style_desc →
  urlopen W (gemini_url api_key)
    (json_dumps W (gemini_payload (full_prompt_of style_desc) mime_type payload))
  = UrlBody text →
  json_loads W text = Parsed data →
  (∀ img, scan_response data ≠ Some (Some img)) →
  lambda_handler W event = error_response W "Failed to generate image" 500.
Proof.
  intros Hp Hd Hu Hj Hscan. apply (falsy_generation_fails W _ _ _ _ _ Hp).
  unfold generate_image_from_sketch. rewrite Hd.
  rewrite (generate_with_prompt_reply W _ _ _ _ _ _ Hu Hj).
  destruct (scan_response data) as [[img|]|]; [| done | done].
  by destruct (Hscan img).
Qed.

(** X14: when, in the reply to the request that was sent, the first part
    that satisfies the generator's condition has no [data], or an empty
    one, the scan ends without an image and the handler answers 500
    [Failed to generate image], even if a later part of the same
    candidate carries an image. *)
Theorem empty_first_image_part_fails (W : World) (event : value)
    (api_key payload : string) (style : value) (mime_type : string)
    (style_desc text : string) (data : value)
    (pre post : list value) (pd inline : gmap string value) (mime : string) :
  prepare W event = Next (api_key, payload, style, mime_type) →
  style_desc_of style = Some style_desc →
  urlopen W (gemini_url api_key)
    (json_dumps W (gemini_payload (full_prompt_of style_desc) mime_type payload))
  = UrlBody text →
  json_loads W text = Parsed data →
  first_candidate_parts data = (pre ++ VDict pd :: post)%list →
  Forall (λ q, is_image_part q = Some false) pre →
  pd !! "inlineData" = Some (VDict inline) →
  inline !! "mimeType" = Some (VStr mime) →
  startswith "image/" mime = true →
  truthy (default VNone (inline !! "data")) = false →
  scan_response data = Some None
  ∧ lambda_handler W event = error_response W "Failed to generate image" 500.
Proof.
  intros Hp Hd Hu Hj Hparts Hpre Hin Hm Hs Hdata.
  assert (Hscan : scan_response data = Some None).
  { rewrite scan_response_parts by (rewrite Hparts; by destruct pre).
    rewrite Hparts, (find_image_part_app _ _ _ Hpre).
    rewrite (is_image_part_intro _ _ _ Hin Hm Hs). simpl.
    unfold image_of_part. rewrite (truthy_dict_lookup _ _ _ Hin).
    unfold py_getitem. rewrite Hin. simpl. by rewrite Hdata. }
  split; [done |].
  apply (reply_without_image_fails W _ _ _ _ _ _ _ _ Hp Hd Hu Hj).
  intros img. by rewrite Hscan.
Qed.

Lemma empty_first_image_part_fails_witness :
  let parts := [Ref.inline_part "image/png" (VStr "");
                Ref.inline_part "image/png" (VStr "QUJD")] in
  let W := Ref.world Ref.env_key (UrlBody (Ref.dumps (Ref.reply_with parts))) in
  let event := request_content (VStr "AAAAAAAAAAAA") (VStr "anime") in
  prepare W event = Next ("k", "AAAAAAAAAAAA", VStr "anime", "image/png")
  ∧ has_usable_image (Ref.reply_with parts) = true
  ∧ lambda_handler W event = error_response W "Failed to generate image" 500.
Proof.
  intros parts W event.
  assert (Hp : prepare W event
               = Next ("k", "AAAAAAAAAAAA", VStr "anime", "image/png"))
    by (vm_compute; reflexivity).
  split; [exact Hp |]. split; [vm_compute; reflexivity |].
  refine (proj2 (empty_first_image_part_fails W event _ _ _ _
            "anime style, vibrant colors, Japanese animation aesthetic, cel-shaded, manga inspired"
            (Ref.dumps (Ref.reply_with parts)) (Ref.reply_with parts)
            [] [Ref.inline_part "image/png" (VStr "QUJD")]
            {["inlineData" := VDict (<["mimeType" := VStr "image/png"]>
                                     (<["data" := VStr ""]> ∅))]}
            (<["mimeType" := VStr "image/png"]> (<["data" := VStr ""]> ∅))
            "image/png" Hp _ _ _ _ _ _ _ _ _)).
  - vm_compute. reflexivity.
  - reflexivity.
  - vm_compute. reflexivity.
  - vm_compute. reflexivity.
  - constructor.
  - apply lookup_singleton_eq.
  - reflexivity.
  - reflexivity.
  - reflexivity.
Defined.

(** X15: a part of the reply to the request that was sent on which the
    generator's condition raises (null, a boolean, a number, an object
    whose [inlineData] is not an object or whose [mimeType] is not a
    string) and that comes before any image part aborts the scan: the
    handler answers 500 [Failed to generate image], even if a later part
    carries an image. *)
Theorem raising_part_aborts_scan (W : World) (event : value)
    (api_key payload : string) (style : value) (mime_type : string)
    (style_desc text : string) (data : value) (pre : list value) (q : value)
    (post : list value) :
  prepare W event = Next (api_key, payload, style, mime_type) →
  style_desc_of style = Some style_desc →
  urlopen W (gemini_url api_key)
    (json_dumps W (gemini_payload (full_prompt_of style_desc) mime_type payload))
  = UrlBody text →
  json_loads W text = Parsed data →
  first_candidate_parts data = (pre ++ q :: post)%list →
  Forall (λ q, is_image_part q = Some false) pre →
  is_image_part q = None →
  scan_response data = None
  ∧ lambda_handler W event = error_response W "Failed to generate image" 500.
Proof.
  intros Hp Hd Hu Hj Hparts Hpre Hq.
  assert (Hscan : scan_response data = None).
  { rewrite scan_response_parts by (rewrite Hparts; by destruct pre).
    by rewrite Hparts, (find_image_part_app _ _ _ Hpre), Hq. }
  split; [done |].
  apply (reply_without_image_fails W _ _ _ _ _ _ _ _ Hp Hd Hu Hj).
  intros img. by rewrite Hscan.
Qed.

Lemma raising_part_aborts_scan_witness :
  let parts := [Ref.text_part "one"; VNone;
                Ref.inline_part "image/png" (VStr "QUJD")] in
  let W := Ref.world Ref.env_key (UrlBody (Ref.dumps (Ref.reply_with parts))) in
  let event := request_content (VStr "AAAAAAAAAAAA") (VStr "anime") in
  prepare W event = Next ("k", "AAAAAAAAAAAA", VStr "anime", "image/png")
  ∧ is_image_part VNone = None
  ∧ has_usable_image (Ref.reply_with parts) = true
  ∧ lambda_handler W event = error_response W "Failed to generate image" 500.
Proof.
  intros parts W event.
  assert (Hp : prepare W event
               = Next ("k", "AAAAAAAAAAAA", VStr "anime", "image/png"))
    by (vm_compute; reflexivity).
  split; [exact Hp |]. split; [reflexivity |].
  split; [vm_compute; reflexivity |].
  refine (proj2 (raising_part_aborts_scan W event _ _ _ _
            "anime style, vibrant colors, Japanese animation aesthetic, cel-shaded, manga inspired"
            (Ref.dumps (Ref.reply_with parts)) (Ref.reply_with parts)
            [Ref.text_part "one"] VNone
            [Ref.inline_part "image/png" (VStr "QUJD")] Hp _ _ _ _ _ _)).
  - vm_compute. reflexivity.
  - reflexivity.
  - vm_compute. reflexivity.
  - vm_compute. reflexivity.
  - repeat constructor.
  - reflexivity.
Defined.

(** ** The publisher and the style table *)

(** X16: the publisher returns a URL exactly when the bucket name is set
    and not empty, the image is a string that [b64decode] accepts,
    [put_object] succeeds for the key
    [generated-images/drawing_<timestamp>_<style>.png], and the pre-signed
    URL for that bucket and key is produced; that URL is the result. *)
Theorem upload_url_iff (W : World) (img style : value) (url : string) :
  upload_to_s3 W img style = VStr url
  ↔ ∃ bucket s image_bytes,
      let key := "generated-images/drawing_" ++ strftime_now W ++ "_"
                 ++ py_str W style ++ ".png" in
      environ W !! "S3_BUCKET_NAME" = Some bucket
      ∧ bucket ≠ ""
      ∧ img = VStr s
      ∧ b64decode W s = Some image_bytes
      ∧ s3_put_object W bucket key image_bytes = true
      ∧ s3_generate_presigned_url W bucket key = Some url.
Proof.
  unfold upload_to_s3, try_upload, s3_filename. cbv zeta.
  remember ("generated-images/drawing_" ++ strftime_now W ++ "_"
            ++ py_str W style ++ ".png") as key eqn:Hkey.
  clear Hkey. split.
  - intros H.
    destruct (environ W !! "S3_BUCKET_NAME") as [bucket|]; [| done].
    destruct (String.eqb bucket "") eqn:Hb; [done |].
    destruct img as [| | | | s | |]; try done. simpl in H.
    destruct (b64decode W s) as [image_bytes|] eqn:Hd; [| done]. simpl in H.
    destruct (s3_put_object W bucket key image_bytes) eqn:Hput; [| done].
    destruct (s3_generate_presigned_url W bucket key) as [u|] eqn:Hu; [| done].
    simplify_eq. exists bucket, s, image_bytes.
    split_and!; try done. by apply String.eqb_neq.
  - intros (bucket & s & image_bytes & Hb & Hne & -> & Hd & Hput & Hu).
    rewrite Hb. apply String.eqb_neq in Hne. rewrite Hne. simpl.
    rewrite Hd. simpl. by rewrite Hput, Hu.
Qed.

(** X17: a string style gets the generic phrase exactly when it is not
    one of the ten identifiers of the table. *)
Theorem generic_phrase_iff_unknown (s : string) :
  style_desc_of (VStr s) = Some "high quality artistic style"
  ↔ s ∉ known_styles.
Proof.
  split.
  - intros H Hin. unfold known_styles in Hin.
    rewrite !elem_of_cons, elem_of_nil in Hin.
    destruct_or!; try done; subst; vm_compute in H; discriminate H.
  - intros H. simpl. by rewrite (style_prompts_unknown s H).
Qed.

(** X18: with the key configured, a request object without an
    [imageData] field (the empty object included) and with a style that
    the log line of line 78 can print is answered with 400
    [No image data provided]. *)
Theorem missing_image_data_rejected (W : World) (d : gmap string value) :
  env_set W "GEMINI_API_KEY" = true →
  d !! "body" = None →
  d !! "imageData" = None →
  printable W (py_str W (get_style d)) = true →
  lambda_handler W (VDict d) = error_response W "No image data provided" 400.
Proof.
  intros Hk Hb Hi Hs. apply lambda_handler_return.
  assert (Hn : normalize W (VDict d) = Next (VNone, get_style d)).
  { unfold normalize, resolve_body. rewrite Hb, Hi. simpl.
    unfold get_image_data. by rewrite Hi. }
  rewrite (prepare_normalized W _ _ _ Hn).
  by apply falsy_after_normalize.
Qed.

Lemma missing_image_data_rejected_witness :
  let W := Ref.world Ref.env_key UrlRaised in
  env_set W "GEMINI_API_KEY" = true
  ∧ lambda_handler W (VDict ∅) = error_response W "No image data provided" 400.
Proof.
  intros W. split; [reflexivity |].
  exact (missing_image_data_rejected W ∅ eq_refl eq_refl eq_refl eq_refl).
Defined.

Lemma upload_url_iff_witness :
  let W := Ref.world Ref.env_key_bucket UrlRaised in
  upload_to_s3 W (VStr "QUJD") (VStr "anime")
  = VStr "https://sketches.s3.amazonaws.com/generated-images/drawing_20250101_120000_anime.png?X-Amz-Expires=3600".
Proof.
  intros W. apply (proj2 (upload_url_iff W (VStr "QUJD") (VStr "anime") _)).
  exists "sketches", "QUJD", []. by split_and!.
Defined.
